(** * networking-ansible: the ML2 mechanism driver

    A shallow embedding of [networking_ansible/ml2/mech_driver.py]
    (class [AnsibleMechanismDriver]) and the properties of its switch-port
    reconciliation logic.

    Conventions of the embedding:
    - Python values whose truthiness or dynamic type the driver depends on
      (segmentation ids, provider attributes) are [pyval]s;
    - a port is either the plain dictionary the ML2 framework hands to the
      driver ([context.current]) or a [Port] object read from the database;
      both answer item access for the port's own fields ([port['id']]), only
      the dictionary has the [portbindings] keys ([port['binding:host_id']]),
      and only the object answers attribute access ([port.id],
      [port.bindings]);
    - the neutron object store is a record of tables with the query
      functions the driver calls;
    - calls to the network runner are recorded in order; the runner itself is
      a parameter [gw] telling which calls raise. *)

From stdpp Require Import base option list strings gmap.
From Stdlib Require Import ZArith Ascii String.

Local Open Scope string_scope.
Local Open Scope list_scope.

(** ** Python values *)

Inductive pyval : Type :=
| PyNone
| PyInt (z : Z)
| PyStr (s : string).

#[global] Instance pyval_eq_dec : EqDecision pyval.
Proof. solve_decision. Defined.

(** [bool(v)] *)
Definition truthy (v : pyval) : bool :=
  match v with
  | PyNone => false
  | PyInt z => negb (Z.eqb z 0)
  | PyStr s => negb (String.eqb s "")
  end.

(** Truthiness of a value that is [None] or a [str]. *)
Definition truthy_str (o : option string) : bool :=
  match o with
  | None => false
  | Some s => negb (String.eqb s "")
  end.

(** ** Strings: the [str] methods the driver uses *)

Module Str.

Definition upper_ascii (a : ascii) : ascii :=
  let n := nat_of_ascii a in
  if (andb (Nat.leb 97 n) (Nat.leb n 122)) then ascii_of_nat (n - 32) else a.

(** [s.upper()] on ASCII text. *)
Fixpoint upper (s : string) : string :=
  match s with
  | EmptyString => EmptyString
  | String a r => String (upper_ascii a) (upper r)
  end.

(** [s.split(sep)[0]] for a one-character [sep]: the text before the first
    separator, the whole string when there is none. *)
Fixpoint split_first (sep : ascii) (s : string) : string :=
  match s with
  | EmptyString => EmptyString
  | String a r => if Ascii.eqb a sep then EmptyString
                  else String a (split_first sep r)
  end.

(** [s.replace(old, new)] for a non-empty [old]: occurrences are found left
    to right and do not overlap. [skip] counts the characters of an
    occurrence already replaced that are still to be dropped. *)
Fixpoint replace_from (old new : string) (skip : nat) (s : string) : string :=
  match s with
  | EmptyString => EmptyString
  | String a r =>
      match skip with
      | S k => replace_from old new k r
      | O => if String.prefix old s
             then new +:+ replace_from old new (String.length old - 1) r
             else String a (replace_from old new 0 r)
      end
  end.

Definition replace (old new s : string) : string := replace_from old new 0 s.

End Str.

(** ** neutron_lib constants ([portbindings]) *)

Module portbindings.
Definition VNIC_NORMAL : string := "normal".
Definition VNIC_DIRECT : string := "direct".
Definition VNIC_BAREMETAL : string := "baremetal".
Definition VIF_TYPE_OTHER : string := "other".
Definition VIF_TYPE_OVS : string := "ovs".
End portbindings.

(** The constants of [networking_ansible.constants] that the driver reads by
    value. The module is not part of the verified sources, so they are a
    parameter of the development. *)
Record Constants : Type := {
  COMPUTE_NOVA : string;           (* c.COMPUTE_NOVA: device owner of VM ports *)
  SUPPORTED_TYPES : list string    (* c.SUPPORTED_TYPES: supported VNIC types *)
}.

(** ** Data model *)

(** One entry of [binding:profile]['local_link_information']. *)
Record LinkInfo : Type := {
  switch_id : option string;
  switch_info : option string;
  port_id : option string
}.

(** A binding profile: the keys the driver reads. *)
Record Profile : Type := {
  local_link_information : option (list LinkInfo);   (* key c.LLI *)
  pci_slot : option string
}.

(** The fields that item access answers on either kind of port: keys of a
    port dictionary, fields of a [Port] object. *)
Record PortData : Type := {
  id : string;
  network_id : string;
  mac_address : string;
  device_owner : string
}.

(** The [portbindings] keys of a port dictionary. A [Port] object has no
    such fields: its binding is in [bindings]. *)
Record BindingData : Type := {
  binding_host_id : string;          (* portbindings.HOST_ID *)
  binding_vnic_type : string;        (* portbindings.VNIC_TYPE *)
  binding_vif_type : string;         (* portbindings.VIF_TYPE *)
  binding_profile : Profile          (* portbindings.PROFILE *)
}.

(** A port dictionary, as [PortContext.current] and [PortContext.original]
    give it. *)
Record PortDict : Type := {
  pd_data : PortData;
  pd_binding : BindingData
}.

(** [neutron.objects.ports.PortBinding]. The driver reads [host] and
    [profile]; [vnic_type] is the VNIC type the binding records. *)
Record PortBinding : Type := {
  host : string;
  vnic_type : string;
  profile : Profile
}.

(** [neutron.objects.ports.Port] *)
Record PortObj : Type := {
  po_data : PortData;
  bindings : list PortBinding
}.

Inductive Port : Type :=
| DictPort (d : PortDict)      (* a port dictionary from a PortContext *)
| ObjPort (o : PortObj).       (* isinstance(port, Port) *)

(** [port['id']], [port['network_id']], [port['mac_address']] and
    [port[c.DEVICE_OWNER]]. *)
Definition port_data (p : Port) : PortData :=
  match p with
  | DictPort d => pd_data d
  | ObjPort o => po_data o
  end.

(** [neutron.objects.network.NetworkSegment] *)
Record Segment : Type := {
  segmentation_id : pyval;
  physical_network : option string;
  network_type : string
}.

(** A network: the object's [id] and [segments], and the provider attributes
    read by key. [provider_segmentation_id = None] is a missing key. *)
Record Network : Type := {
  net_id : string;
  segments : list Segment;
  provider_network_type : pyval;
  provider_segmentation_id : option pyval;
  provider_physical_network : option string
}.

Record SubPort : Type := {
  sp_port_id : string;
  sp_segmentation_id : pyval
}.

(** [neutron.objects.trunk.Trunk] *)
Record Trunk : Type := {
  trunk_port_id : string;
  sub_ports : list SubPort
}.

(** The neutron database as the driver queries it. *)
Record DB : Type := {
  db_ports : list PortObj;
  db_networks : list Network;
  db_segments : list Segment;
  db_trunks : list Trunk
}.

(** A (switch_name, switch_port) tuple. *)
Definition Mapping : Type := (option string * option string)%type.

Definition Kwargs : Type := list (string * string).

(** One host of [ml2config.inventory]; [host_kwargs] is [self.kwargs[host]]
    as [initialize] builds it. *)
Record Host : Type := {
  manage_vlans : option bool;
  host_kwargs : Kwargs
}.

Record ML2Config : Type := {
  inventory : list (string * Host);           (* a dict, in insertion order *)
  mac_map : gmap string string;
  port_mappings : gmap string (list Mapping)
}.

(** ** Calls to the network runner *)

Inductive DeviceCall : Type :=
| create_vlan (switch : string) (vlan : pyval) (kw : Kwargs)
| delete_vlan (switch : string) (vlan : pyval) (kw : Kwargs)
| conf_access_port (switch : string) (sport : option string) (vlan : pyval) (kw : Kwargs)
| conf_trunk_port (switch : string) (sport : option string) (vlan : pyval)
                  (trunked_vlans : list pyval) (kw : Kwargs)
| add_trunk_vlan (switch : string) (sport : option string) (vlan : pyval) (kw : Kwargs)
| delete_trunk_vlan (switch : string) (sport : option string) (vlan : pyval) (kw : Kwargs)
| delete_port (switch : string) (sport : option string) (kw : Kwargs).

(** ** Exceptions *)

(** The messages of the [MechanismDriverError]s the driver raises. *)
Inductive md_error : Type :=
| NullPort
| NoSwitchNameOrPort (switch_name switch_port : option string)
| SwitchNotInInventory (switch_name : option string)
| NoNetworkForPort (port : string)
| SwitchNotInRunnerInventory (switch_name : option string) (port : string).

Inductive exn : Type :=
| MechanismDriverError (m : md_error)
| LocalLinkInfoMissingException (port : string)
| NetworkingAnsibleMechException (e : exn)
| RunnerError (detail : string)       (* raised by the network runner *)
| AttributeError
| IndexError
| KeyError
| TypeError.

(** ** Results and effects *)

(** A computation that may raise. *)
Inductive Res (A : Type) : Type :=
| Raise (e : exn)
| Ok (a : A).
Arguments Raise {A} e.
Arguments Ok {A} a.

#[global] Instance Res_ret : MRet Res := fun A a => Ok a.
#[global] Instance Res_bind : MBind Res := fun A B f m =>
  match m with
  | Raise e => Raise e
  | Ok a => f a
  end.

(** A computation that calls the network runner and may raise: the calls
    issued, in order, and how it ended. *)
Record M (A : Type) : Type := mkM {
  calls : list DeviceCall;
  outcome : Res A
}.
Arguments mkM {A} calls outcome.
Arguments calls {A} m.
Arguments outcome {A} m.

#[global] Instance M_ret : MRet M := fun A a => mkM [] (Ok a).
#[global] Instance M_bind : MBind M := fun A B f m =>
  match outcome m with
  | Raise e => mkM (calls m) (Raise e)
  | Ok a => let r := f a in mkM (calls m ++ calls r) (outcome r)
  end.

Definition lift {A} (r : Res A) : M A := mkM [] r.
Definition raise {A} (e : exn) : M A := mkM [] (Raise e).

(** [try: m except Exception as e: raise NetworkingAnsibleMechException(e)] *)
Definition wrap_errors {A} (m : M A) : M A :=
  match outcome m with
  | Raise e => mkM (calls m) (Raise (NetworkingAnsibleMechException e))
  | Ok a => m
  end.

(** [port[key]] and [port.get(key, ...)] for a [portbindings] key. A port
    dictionary holds these keys; a [Port] object has no field of that name and
    raises [AttributeError]. *)
Definition binding_items (port : Port) : Res BindingData :=
  match port with
  | DictPort d => Ok (pd_binding d)
  | ObjPort _ => Raise AttributeError
  end.

(** ** Queries on the object store *)

(** [Port.get_object(db, id=port_id)] *)
Definition Port_get_object (db : DB) (port_id : string) : option PortObj :=
  List.find (fun p => bool_decide (id (po_data p) = port_id)) (db_ports db).

(** [Port.get_objects(db, network_id=n, device_owner=o)] *)
Definition Port_get_objects_on_network (db : DB) (n o : string) : list PortObj :=
  filter (fun p => network_id (po_data p) = n /\ device_owner (po_data p) = o)
         (db_ports db).

(** [Port.get_objects(db, mac_address=mac)] *)
Definition Port_get_objects_by_mac (db : DB) (mac : string) : list PortObj :=
  filter (fun p => mac_address (po_data p) = mac) (db_ports db).

(** [Network.get_object(db, id=network_id)] *)
Definition Network_get_object (db : DB) (network_id : string) : option Network :=
  List.find (fun n => bool_decide (net_id n = network_id)) (db_networks db).

(** [NetworkSegment.get_objects(db, segmentation_id=v)] *)
Definition NetworkSegment_get_objects (db : DB) (v : pyval) : list Segment :=
  filter (fun s => segmentation_id s = v) (db_segments db).

(** [Trunk.get_object(db, port_id=port_id)] *)
Definition Trunk_get_object (db : DB) (port_id : string) : option Trunk :=
  List.find (fun t => bool_decide (trunk_port_id t = port_id)) (db_trunks db).

(** [[s.segmentation_id for s in net.segments]] *)
Definition segment_ids (net : Network) : list pyval :=
  segmentation_id <$> segments net.

(** ** The mechanism driver *)

Section AnsibleMechanismDriver.

Variable c : Constants.
Variable ml2config : ML2Config.

(** The network runner: [gw call = Some d] when the call raises (with detail
    [d]), [None] when it succeeds. *)
Variable gw : DeviceCall -> option string.

Definition net_runr (call : DeviceCall) : M unit :=
  mkM [call] (match gw call with
              | None => Ok tt
              | Some d => Raise (RunnerError d)
              end).

(** [self.ml2config.inventory[name]], if any. *)
Fixpoint lookup_host (hosts : list (string * Host)) (name : string) : option Host :=
  match hosts with
  | [] => None
  | (n, h) :: rest => if String.eqb n name then Some h else lookup_host rest name
  end.

(** [self.net_runr.has_host(switch_name)] for the host names of
    [ml2config.inventory], from which the runner's inventory is built and
    which are the keys of [self.kwargs]. *)
Definition has_host (switch_name : option string) : bool :=
  match switch_name with
  | None => false
  | Some n => match lookup_host (inventory ml2config) n with
              | Some _ => true
              | None => false
              end
  end.

(** [self.kwargs[switch_name]] *)
Definition kwargs (switch_name : option string) : Res Kwargs :=
  match switch_name with
  | None => Raise KeyError
  | Some n => match lookup_host (inventory ml2config) n with
              | Some h => Ok (host_kwargs h)
              | None => Raise KeyError
              end
  end.

Definition _is_port_supported (port : Port) : Res bool :=
  b ← binding_items port;
  let vnic_type := binding_vnic_type b in
  Ok (bool_decide (vnic_type ∈ SUPPORTED_TYPES c)).

Definition _is_port_baremetal (port : Port) : Res bool :=
  b ← binding_items port;
  let vnic_type := binding_vnic_type b in
  Ok (String.eqb vnic_type portbindings.VNIC_BAREMETAL).

Definition _is_port_normal (port : Port) : bool :=
  String.eqb (device_owner (port_data port)) (COMPUTE_NOVA c).

Definition _is_port_direct (port : Port) : Res bool :=
  b ← binding_items port;
  let vnic_type := binding_vnic_type b in
  Ok (String.eqb vnic_type portbindings.VNIC_DIRECT).

Definition _is_port_bound (port : Port) : Res bool :=
  supported ← _is_port_supported port;
  if negb supported then Ok false
  else
    b ← binding_items port;
    let vif_type := binding_vif_type b in
    baremetal ← _is_port_baremetal port;
    if (baremetal : bool)
    then Ok (String.eqb vif_type portbindings.VIF_TYPE_OTHER)
    else if _is_port_normal port
    then Ok (String.eqb vif_type portbindings.VIF_TYPE_OVS)
    else Ok false.

(** Truthiness of a link-information value ([None] or a list). *)
Definition lli_truthy (lli : option (list LinkInfo)) : bool :=
  match lli with
  | Some (_ :: _) => true
  | _ => false
  end.

Definition _get_port_lli (port : option Port) : Res (option (list LinkInfo)) :=
  match port with
  | None => Ok None
  | Some (ObjPort o) =>
      match bindings o with
      | [] => Raise IndexError                            (* port.bindings[0] *)
      | b :: _ => Ok (local_link_information (profile b))
      end
  | Some (DictPort d) =>
      supported ← _is_port_supported (DictPort d);
      if negb supported then Ok None
      else Ok (local_link_information (binding_profile (pd_binding d)))
  end.

(** The device-address part of the key: function dropped, domain prefix and
    colons removed. *)
Definition normalize_pci_slot (pci : string) : string :=
  let pci_slot := Str.split_first "." pci in
  let pci_slot := Str.replace "0000:" "" pci_slot in
  Str.replace ":" "" pci_slot.

Definition _build_sriov_host_id (port : Port) (host_id : string) : Res string :=
  b ← binding_items port;
  match pci_slot (binding_profile b) with
  | None => Raise AttributeError                          (* None.split *)
  | Some pci => Ok (host_id +:+ "-" +:+ normalize_pci_slot pci)
  end.

(** [(network or {}).get(provider_net.SEGMENTATION_ID, '')] *)
Definition network_segmentation_id (network : option Network) : pyval :=
  match network with
  | None => PyStr ""
  | Some n => default (PyStr "") (provider_segmentation_id n)
  end.

Definition _switch_meta_from_link_info (port : Port) (network : option Network)
  : Res (list Mapping * pyval) :=
  local_link_info ← _get_port_lli (Some port);
  match local_link_info with
  | Some (lli0 :: _) =>
      let switch_mac := Str.upper (default "" (switch_id lli0)) in
      let switch_name := switch_info lli0 in
      let switch_port := port_id lli0 in
      let switch_name :=
        if negb (truthy_str switch_name) then
          match mac_map ml2config !! switch_mac with
          | Some name => Some name
          | None => switch_name
          end
        else switch_name in
      let segmentation_id := network_segmentation_id network in
      Ok ([(switch_name, switch_port)], segmentation_id)
  | _ => Raise (LocalLinkInfoMissingException (id (port_data port)))
  end.

Definition _switch_meta_from_port_host_id (port : Port) (network : option Network)
  : Res (list Mapping * pyval) :=
  b ← binding_items port;
  let host_id := binding_host_id b in
  direct ← _is_port_direct port;
  host_id ← (if (direct : bool) then _build_sriov_host_id port host_id
             else Ok host_id);
  let mappings := default [] (port_mappings ml2config !! host_id) in
  let segmentation_id := network_segmentation_id network in
  Ok (mappings, segmentation_id).

(** The mappings are [None] for a port that is neither bare-metal nor a VM
    port. The first test reads [port[portbindings.VNIC_TYPE]], so the port
    has to be a dictionary. *)
Definition get_switch_meta (port : Port) (network : option Network)
  : Res (option (list Mapping) * pyval) :=
  baremetal ← _is_port_baremetal port;
  if (baremetal : bool) then
    '(m, s) ← _switch_meta_from_link_info port network; Ok (Some m, s)
  else if _is_port_normal port then
    '(m, s) ← _switch_meta_from_port_host_id port network; Ok (Some m, s)
  else Ok (None, PyNone).

(** [port.id]: attribute access, which a dictionary does not answer. *)
Definition port_attr_id (port : Port) : Res string :=
  match port with
  | ObjPort o => Ok (id (po_data o))
  | DictPort _ => Raise AttributeError
  end.

(** [network.segments[0].segmentation_id] *)
Definition primary_segmentation_id (network : Network) : Res pyval :=
  match segments network with
  | [] => Raise IndexError
  | s :: _ => Ok (segmentation_id s)
  end.

Definition _set_port_state (port : option Port) (db : DB)
           (switch_name switch_port : option string) : M bool :=
  match port with
  | None => raise (MechanismDriverError NullPort)
  | Some port =>
    if negb (truthy_str switch_name) || negb (truthy_str switch_port) then
      raise (MechanismDriverError (NoSwitchNameOrPort switch_name switch_port))
    else if negb (has_host switch_name) then
      raise (MechanismDriverError (SwitchNotInInventory switch_name))
    else
      match Network_get_object db (network_id (port_data port)) with
      | None =>
          pid ← lift (port_attr_id port);
          raise (MechanismDriverError (NoNetworkForPort pid))
      | Some network =>
          let trunk := Trunk_get_object db (id (port_data port)) in
          segmentation_id ← lift (primary_segmentation_id network);
          wrap_errors
            (kw ← lift (kwargs switch_name);
             _ ← match trunk with
                 | Some trunk =>
                     let trunked_vlans := sp_segmentation_id <$> sub_ports trunk in
                     net_runr (conf_trunk_port (default "" switch_name) switch_port
                                               segmentation_id trunked_vlans kw)
                 | None =>
                     if _is_port_normal port then
                       net_runr (add_trunk_vlan (default "" switch_name) switch_port
                                                segmentation_id kw)
                     else
                       net_runr (conf_access_port (default "" switch_name) switch_port
                                                  segmentation_id kw)
                 end;
             mret true)
      end
  end.

Definition _delete_switch_port (switch_name switch_port : option string) : M unit :=
  wrap_errors
    (kw ← lift (kwargs switch_name);
     net_runr (delete_port (default "" switch_name) switch_port kw)).

(** The inner loop of [_is_deleted_port_in_use]: [for seg in net.segments]. *)
Definition segment_on_physnet (physnet : option string) (seg : Segment) : bool :=
  bool_decide (physical_network seg = physnet) && String.eqb (network_type seg) "vlan".

Fixpoint deleted_port_in_use_loop (physnet : option string) (db : DB)
         (mports : list PortObj) : Res bool :=
  match mports with
  | [] => Ok false
  | port :: rest =>
      match bindings port with
      | [] => deleted_port_in_use_loop physnet db rest
      | _ :: _ =>
          lli ← _get_port_lli (Some (ObjPort port));
          if lli_truthy lli then
            match Network_get_object db (network_id (po_data port)) with
            | Some net =>
                if existsb (segment_on_physnet physnet) (segments net) then Ok true
                else deleted_port_in_use_loop physnet db rest
            | None => deleted_port_in_use_loop physnet db rest
            end
          else deleted_port_in_use_loop physnet db rest
      end
  end.

Definition _is_deleted_port_in_use (physnet : option string) (mac : string) (db : DB)
  : Res bool :=
  let mports := Port_get_objects_by_mac db mac in
  deleted_port_in_use_loop physnet db mports.

(** [active_port_filter], the closure of [ensure_port]: [port],
    [switch_port] and [segmentation_id] are the enclosing call's. The loop
    [for binding in db_port.bindings] runs over [bs]. *)
Fixpoint active_port_filter_loop (port : Port) (db : DB)
         (switch_port : option string) (segmentation_id : pyval)
         (db_port : PortObj) (bs : list PortBinding) : Res bool :=
  match bs with
  | [] => Ok false
  | binding :: rest =>
      b ← binding_items port;
      let host_id := binding_host_id b in
      direct ← _is_port_direct port;
      if (direct : bool) then
        host_id ← _build_sriov_host_id port host_id;
        let db_network := Network_get_object db (network_id (po_data db_port)) in
        '(mappings, db_segid) ← get_switch_meta (ObjPort db_port) db_network;
        match mappings with
        | None => Raise TypeError                        (* None[0] *)
        | Some [] => Raise IndexError                    (* mappings[0] *)
        | Some (m :: _) =>
            let db_switchport := snd m in
            if bool_decide (db_switchport = switch_port)
               && bool_decide (db_segid = segmentation_id)
               && negb (String.eqb (id (po_data db_port)) (id (port_data port)))
            then Ok true
            else active_port_filter_loop port db switch_port segmentation_id db_port rest
        end
      else
        if String.eqb (host binding) host_id
           && negb (String.eqb (id (po_data db_port)) (id (port_data port)))
        then Ok true
        else active_port_filter_loop port db switch_port segmentation_id db_port rest
  end.

Definition active_port_filter (port : Port) (db : DB)
           (switch_port : option string) (segmentation_id : pyval)
           (db_port : PortObj) : Res bool :=
  active_port_filter_loop port db switch_port segmentation_id db_port (bindings db_port).

(** [list(filter(f, l))] for a predicate that may raise. *)
Fixpoint filter_raising {A} (f : A -> Res bool) (l : list A) : Res (list A) :=
  match l with
  | [] => Ok []
  | x :: rest =>
      b ← f x;
      kept ← filter_raising f rest;
      Ok (if (b : bool) then x :: kept else kept)
  end.

(** [port_context]: [None], or the ids of [segments_to_bind]. The result is
    the binding committed by [port_context.set_binding], if any:
    the segment id and the VIF type. *)
Definition ensure_port (port : Port) (db : DB)
           (switch_name switch_port : option string) (physnet : option string)
           (port_context : option (list string)) (segmentation_id : pyval)
           (delete : bool) : M (option (string * string)) :=
  if negb (has_host switch_name) then
    raise (MechanismDriverError
             (SwitchNotInRunnerInventory switch_name (id (port_data port))))
  else
    (* with lock: *)
    let updated_port := Port_get_object db (id (port_data port)) in
    if _is_port_normal port then
      if delete then
        let active_ports :=
          Port_get_objects_on_network db (network_id (port_data port)) (COMPUTE_NOVA c) in
        active_ports ← lift (filter_raising
                               (active_port_filter port db switch_port segmentation_id)
                               active_ports);
        match active_ports with
        | [] =>
            kw ← lift (kwargs switch_name);
            _ ← net_runr (delete_trunk_vlan (default "" switch_name) switch_port
                                            segmentation_id kw);
            mret None
        | _ :: _ => mret None
        end
      else
        _ ← _set_port_state (Some port) db switch_name switch_port;
        mret None
    else
      lli ← lift (_get_port_lli (ObjPort <$> updated_port));
      if lli_truthy lli then
        ok ← _set_port_state (ObjPort <$> updated_port) db switch_name switch_port;
        if (ok : bool) then
          match port_context with
          | Some (seg :: _) => mret (Some (seg, portbindings.VIF_TYPE_OTHER))
          | _ => mret None
          end
        else
          mret None
      else
        in_use ← lift (_is_deleted_port_in_use physnet (mac_address (port_data port)) db);
        if (in_use : bool) then mret None
        else
          _ ← _delete_switch_port switch_name switch_port;
          mret None.

(** *** Network life cycle

    Both handlers walk the inventory and take each switch's lock in turn;
    the store may change between two locks. [db_at host_name] is the store
    as it reads while the lock of [host_name] is held. *)

(** [host.get('manage_vlans', True)] *)
Definition host_manages_vlans (host : Host) : bool :=
  default true (manage_vlans host).

(** [network[provider_net.SEGMENTATION_ID]] *)
Definition network_item_segmentation_id (network : Network) : Res pyval :=
  match provider_segmentation_id network with
  | Some v => Ok v
  | None => Raise KeyError
  end.

Definition is_vlan (provider_type : pyval) : bool :=
  bool_decide (provider_type = PyStr "vlan").

(** The loop of [create_network_postcommit] over the hosts still to visit. *)
Fixpoint create_network_loop (db_at : string -> DB) (network : Network)
         (hosts : list (string * Host)) : M unit :=
  match hosts with
  | [] => mret tt
  | (host_name, host) :: rest =>
      if host_manages_vlans host then
        let network_id := net_id network in
        let provider_type := provider_network_type network in
        segmentation_id ← lift (network_item_segmentation_id network);
        (* with lock: *)
        if is_vlan provider_type && truthy segmentation_id then
          match Network_get_object (db_at host_name) network_id with
          | None => mret tt                                           (* return *)
          | Some net =>
              let s_ids := segment_ids net in
              if negb (bool_decide (segmentation_id ∈ s_ids)) then mret tt  (* return *)
              else
                _ ← wrap_errors
                      (net_runr (create_vlan host_name segmentation_id (host_kwargs host)));
                create_network_loop db_at network rest
          end
        else create_network_loop db_at network rest
      else create_network_loop db_at network rest
  end.

Definition create_network_postcommit (db_at : string -> DB) (network : Network) : M unit :=
  create_network_loop db_at network (inventory ml2config).

(** The test of the loop [for segment in segments] of
    [delete_network_postcommit]. *)
Definition segment_recreated (seg_id : pyval) (physnet : option string)
           (segment : Segment) : bool :=
  bool_decide (segmentation_id segment = seg_id)
  && bool_decide (physical_network segment = physnet)
  && String.eqb (network_type segment) "vlan".

Fixpoint delete_network_loop (db_at : string -> DB) (network : Network)
         (hosts : list (string * Host)) : M unit :=
  match hosts with
  | [] => mret tt
  | (host_name, host) :: rest =>
      let provider_type := provider_network_type network in
      segmentation_id ← lift (network_item_segmentation_id network);
      let physnet := provider_physical_network network in
      if is_vlan provider_type && truthy segmentation_id then
        if host_manages_vlans host then
          (* with lock: *)
          let db := db_at host_name in
          let segments := NetworkSegment_get_objects db segmentation_id in
          if existsb (segment_recreated segmentation_id physnet) segments
          then mret tt                                                (* return *)
          else
            _ ← wrap_errors
                  (net_runr (delete_vlan host_name segmentation_id (host_kwargs host)));
            delete_network_loop db_at network rest
        else delete_network_loop db_at network rest
      else delete_network_loop db_at network rest
  end.

Definition delete_network_postcommit (db_at : string -> DB) (network : Network) : M unit :=
  delete_network_loop db_at network (inventory ml2config).

End AnsibleMechanismDriver.

(** * Specification vocabulary

    The conditions the properties below are stated with, written over the
    store and the configuration rather than over the driver's control flow. *)

(** An exception that left the handler came from the network runner: the last
    call issued is the one that failed. *)
Definition raised_by_runner {A} (gw : DeviceCall -> option string) (r : M A) : Prop :=
  ∀ e, outcome r = Raise e →
       ∃ call d, last (calls r) = Some call ∧ gw call = Some d
                 ∧ e = NetworkingAnsibleMechException (RunnerError d).

(** ** Network life cycle *)

(** The network of the event is gone, or no longer carries the VLAN. *)
Definition network_is_stale (db : DB) (network : Network) (vlan : pyval) : Prop :=
  match Network_get_object db (net_id network) with
  | None => True
  | Some net => vlan ∉ segment_ids net
  end.

Definition segment_matches (vlan : pyval) (physnet : option string) (seg : Segment) : Prop :=
  segmentation_id seg = vlan ∧ physical_network seg = physnet ∧ network_type seg = "vlan".

(** Some segment of the store still has the VLAN id on the physical network. *)
Definition vlan_still_in_store (db : DB) (vlan : pyval) (physnet : option string) : Prop :=
  ∃ seg, seg ∈ db_segments db ∧ segment_matches vlan physnet seg.

(** A switch is VLAN-managed unless its entry says [manage_vlans = False]. *)
Definition vlan_managed (host : Host) : Prop := manage_vlans host ≠ Some false.

#[global] Instance vlan_managed_dec host : Decision (vlan_managed host).
Proof. unfold vlan_managed. apply _. Defined.

Definition eligible_hosts (hosts : list (string * Host)) : list (string * Host) :=
  filter (fun nh => vlan_managed nh.2) hosts.

Definition create_calls (vlan : pyval) (hosts : list (string * Host)) : list DeviceCall :=
  (fun nh => create_vlan nh.1 vlan (host_kwargs nh.2)) <$> eligible_hosts hosts.

Definition delete_calls (vlan : pyval) (hosts : list (string * Host)) : list DeviceCall :=
  (fun nh => delete_vlan nh.1 vlan (host_kwargs nh.2)) <$> eligible_hosts hosts.

(** ** Setting the port state *)

(** [_set_port_state] gets past its checks: the names are present, the switch
    is [host] of the inventory, the port's network is [network] and its
    primary segment is [seg0]. *)
Definition reaches_device_call (cfg : ML2Config) (db : DB) (port : Port)
           (sn : string) (sp : option string) (host : Host) (network : Network)
           (seg0 : Segment) : Prop :=
  truthy_str (Some sn) = true ∧ truthy_str sp = true
  ∧ lookup_host (inventory cfg) sn = Some host
  ∧ Network_get_object db (network_id (port_data port)) = Some network
  ∧ head (segments network) = Some seg0.

(** The one call of the device-call stage. *)
Definition port_state_call (c : Constants) (db : DB) (port : Port) (sn : string)
           (sp : option string) (vlan : pyval) (kw : Kwargs) : DeviceCall :=
  match Trunk_get_object db (id (port_data port)) with
  | Some trunk => conf_trunk_port sn sp vlan (sp_segmentation_id <$> sub_ports trunk) kw
  | None => if _is_port_normal c port then add_trunk_vlan sn sp vlan kw
            else conf_access_port sn sp vlan kw
  end.

(** The effect of a sequence of calls on a device, for a given meaning
    [apply] of one call. *)
Definition run_calls {S} (apply : DeviceCall -> S -> S) (l : list DeviceCall) (s : S) : S :=
  fold_left (fun s call => apply call s) l s.

(** ** Topology resolution *)

(** The VNIC type of a port: the key of a port dictionary, and for a [Port]
    object what its first binding records. *)
Definition port_vnic_type (port : Port) : option string :=
  match port with
  | DictPort d => Some (binding_vnic_type (pd_binding d))
  | ObjPort o => vnic_type <$> head (bindings o)
  end.

(** The binding profile of a port, if it has one. *)
Definition port_profile (port : Port) : option Profile :=
  match port with
  | DictPort d => Some (binding_profile (pd_binding d))
  | ObjPort o => profile <$> head (bindings o)
  end.

(** The key of a VM port into [port_mappings]: the host id, and for a direct
    port the host id followed by the device address. *)
Definition mapping_table_key (port : Port) : Res string :=
  b ← binding_items port;
  let host_id := binding_host_id b in
  direct ← _is_port_direct port;
  if (direct : bool) then _build_sriov_host_id port host_id else Ok host_id.

(** The same key for a port of the store, read off its first binding: the
    binding's host, followed by the device address when the binding is a
    direct one. *)
Definition store_port_key (q : PortObj) : option string :=
  b ← head (bindings q);
  if String.eqb (vnic_type b) portbindings.VNIC_DIRECT
  then pci ← pci_slot (profile b); Some (host b +:+ "-" +:+ normalize_pci_slot pci)
  else Some (host b).

(** ** Deleted ports *)

(** [q] is still bound, has link information, and its network has a VLAN
    segment on [physnet]. *)
Definition port_in_use_on (db : DB) (physnet : option string) (q : PortObj) : Prop :=
  ∃ b net seg,
    head (bindings q) = Some b
    ∧ lli_truthy (local_link_information (profile b)) = true
    ∧ Network_get_object db (network_id (po_data q)) = Some net
    ∧ seg ∈ segments net
    ∧ physical_network seg = physnet ∧ network_type seg = "vlan".

Definition still_bound_port_on_physnet (db : DB) (physnet : option string) (mac : string)
  : Prop :=
  ∃ q, q ∈ db_ports db ∧ mac_address (po_data q) = mac ∧ port_in_use_on db physnet q.

(** ** VM ports sharing an uplink *)

(** What the driver takes as "another port still uses this VLAN here" when
    the deleted port [port] is not a passthrough port: another compute port
    of the network has a binding on the host of [port]. *)
Definition host_sharing_port (c : Constants) (db : DB) (port : Port) : Prop :=
  ∃ q b pb, q ∈ db_ports db
         ∧ network_id (po_data q) = network_id (port_data port)
         ∧ device_owner (po_data q) = COMPUTE_NOVA c
         ∧ id (po_data q) ≠ id (port_data port)
         ∧ b ∈ bindings q ∧ binding_items port = Ok pb ∧ host b = binding_host_id pb.

(** Another compute port of the network whose own key maps to the switch port
    and whose network has the segmentation id: the location test read off the
    mapping table, whatever host the ports are on. *)
Definition other_port_at_location (c : Constants) (cfg : ML2Config) (db : DB) (port : Port)
           (switch_port : option string) (segid : pyval) : Prop :=
  ∃ q key m,
    q ∈ db_ports db
    ∧ device_owner (po_data q) = COMPUTE_NOVA c
    ∧ network_id (po_data q) = network_id (port_data port)
    ∧ id (po_data q) ≠ id (port_data port)
    ∧ store_port_key q = Some key
    ∧ m ∈ default [] (port_mappings cfg !! key) ∧ m.2 = switch_port
    ∧ network_segmentation_id (Network_get_object db (network_id (po_data q))) = segid.

(** * A reference switch

    What the named operations of the runner do to a switch, kept to what the
    driver relies on: [conf_access_port] and [conf_trunk_port] replace the
    port's configuration, the member-VLAN operations add to or remove from it,
    the VLAN operations maintain the VLAN table. *)

Inductive PortConf : Type :=
| AccessConf (vlan : pyval)
| TrunkConf (native : option pyval) (members : list pyval).

Record Switches : Type := {
  sw_vlans : gmap string (list pyval);
  sw_ports : gmap (string * option string) PortConf
}.

Definition add_vlan (v : pyval) (l : list pyval) : list pyval :=
  if bool_decide (v ∈ l) then l else l ++ [v].

Definition remove_vlan (v : pyval) (l : list pyval) : list pyval :=
  filter (fun x => x ≠ v) l.

Definition apply_call (call : DeviceCall) (s : Switches) : Switches :=
  match call with
  | create_vlan sw v _ =>
      {| sw_vlans := <[sw := add_vlan v (default [] (sw_vlans s !! sw))]> (sw_vlans s);
         sw_ports := sw_ports s |}
  | delete_vlan sw v _ =>
      {| sw_vlans := <[sw := remove_vlan v (default [] (sw_vlans s !! sw))]> (sw_vlans s);
         sw_ports := sw_ports s |}
  | conf_access_port sw p v _ =>
      {| sw_vlans := sw_vlans s; sw_ports := <[(sw, p) := AccessConf v]> (sw_ports s) |}
  | conf_trunk_port sw p v ms _ =>
      {| sw_vlans := sw_vlans s; sw_ports := <[(sw, p) := TrunkConf (Some v) ms]> (sw_ports s) |}
  | add_trunk_vlan sw p v _ =>
      {| sw_vlans := sw_vlans s;
         sw_ports :=
           match sw_ports s !! (sw, p) with
           | Some (TrunkConf n ms) => <[(sw, p) := TrunkConf n (add_vlan v ms)]> (sw_ports s)
           | _ => <[(sw, p) := TrunkConf None [v]]> (sw_ports s)
           end |}
  | delete_trunk_vlan sw p v _ =>
      {| sw_vlans := sw_vlans s;
         sw_ports :=
           match sw_ports s !! (sw, p) with
           | Some (TrunkConf n ms) => <[(sw, p) := TrunkConf n (remove_vlan v ms)]> (sw_ports s)
           | _ => sw_ports s
           end |}
  | delete_port sw p _ =>
      {| sw_vlans := sw_vlans s; sw_ports := delete (sw, p) (sw_ports s) |}
  end.

(** * A small deployment

    One managed switch and one left alone, two compute hosts behind the same
    uplink [eth1], a passthrough device of the first host on [eth2], and a
    bare-metal node on [Eth1/1]. *)

Definition ex_consts : Constants :=
  {| COMPUTE_NOVA := "compute:nova";
     SUPPORTED_TYPES := ["baremetal"; "normal"; "direct"] |}.

Definition ex_sw1 : Host :=
  {| manage_vlans := None; host_kwargs := [("ansible_network_os", "junos")] |}.

Definition ex_sw2 : Host :=
  {| manage_vlans := Some false; host_kwargs := [] |}.

Definition ex_config : ML2Config :=
  {| inventory := [("sw1", ex_sw1); ("sw2", ex_sw2)];
     mac_map := {[ "AA:BB:CC:DD:EE:FF" := "sw1" ]};
     port_mappings :=
       <[ "compute-1" := [(Some "sw1", Some "eth1")] ]>
       (<[ "compute-1-0310" := [(Some "sw1", Some "eth2")] ]>
        (<[ "compute-2" := [(Some "sw1", Some "eth1")] ]> ∅)) |}.

(** A runner on which every call succeeds. *)
Definition ex_gw : DeviceCall -> option string := fun _ => None.

Definition ex_segment : Segment :=
  {| segmentation_id := PyInt 100; physical_network := Some "physnet1";
     network_type := "vlan" |}.

Definition ex_network : Network :=
  {| net_id := "net-1"; segments := [ex_segment];
     provider_network_type := PyStr "vlan";
     provider_segmentation_id := Some (PyInt 100);
     provider_physical_network := Some "physnet1" |}.

Definition ex_no_profile : Profile :=
  {| local_link_information := None; pci_slot := None |}.

(** The VM port being deleted: a normal port on [compute-1]. *)
Definition ex_vm_port : Port :=
  DictPort
    {| pd_data := {| id := "port-1"; network_id := "net-1";
                     mac_address := "fa:16:3e:00:00:01"; device_owner := "compute:nova" |};
       pd_binding := {| binding_host_id := "compute-1";
                        binding_vnic_type := "normal"; binding_vif_type := "ovs";
                        binding_profile := ex_no_profile |} |}.

Definition ex_vf_profile (function : string) : Profile :=
  {| local_link_information := None; pci_slot := Some ("0000:03:10." +:+ function) |}.

(** A passthrough port on [compute-1], on virtual function [function] of
    device [0000:03:10]. *)
Definition ex_vf_data (port_id function : string) : PortDict :=
  {| pd_data := {| id := port_id; network_id := "net-1";
                   mac_address := "fa:16:3e:00:00:02"; device_owner := "compute:nova" |};
     pd_binding := {| binding_host_id := "compute-1";
                      binding_vnic_type := "direct"; binding_vif_type := "hw_veb";
                      binding_profile := ex_vf_profile function |} |}.

(** The same port as the store has it. *)
Definition ex_vf_port : PortObj :=
  {| po_data := pd_data (ex_vf_data "port-2" "0");
     bindings := [ {| host := "compute-1"; vnic_type := "direct";
                      profile := ex_vf_profile "0" |} ] |}.

(** A normal VM port on the second compute host. *)
Definition ex_vm_port_2 : PortObj :=
  {| po_data := {| id := "port-3"; network_id := "net-1";
                   mac_address := "fa:16:3e:00:00:03";
                   device_owner := "compute:nova" |};
     bindings := [ {| host := "compute-2"; vnic_type := "normal";
                      profile := ex_no_profile |} ] |}.

Definition ex_lli : LinkInfo :=
  {| switch_id := Some "aa:bb:cc:dd:ee:ff"; switch_info := None;
     port_id := Some "Eth1/1" |}.

(** A bare-metal port with link information. *)
Definition ex_bm_data : PortDict :=
  {| pd_data := {| id := "port-4"; network_id := "net-1";
                   mac_address := "52:54:00:00:00:04"; device_owner := "baremetal:none" |};
     pd_binding := {| binding_host_id := "node-4";
                      binding_vnic_type := "baremetal"; binding_vif_type := "other";
                      binding_profile := {| local_link_information := Some [ex_lli];
                                            pci_slot := None |} |} |}.

Definition ex_db (ports : list PortObj) : DB :=
  {| db_ports := ports; db_networks := [ex_network];
     db_segments := [ex_segment]; db_trunks := [] |}.

(** The store once the network and its segment are gone. *)
Definition ex_db_empty : DB :=
  {| db_ports := []; db_networks := []; db_segments := []; db_trunks := [] |}.

(** The store once a sub-port on VLAN 60 is attached to the bare-metal port. *)
Definition ex_trunk_db : DB :=
  {| db_ports := []; db_networks := [ex_network]; db_segments := [ex_segment];
     db_trunks := [ {| trunk_port_id := "port-4";
                       sub_ports := [ {| sp_port_id := "port-5";
                                         sp_segmentation_id := PyInt 60 |} ] |} ] |}.

(** * The framework hooks

    The hooks ML2 calls ([bind_port], [update_port_postcommit],
    [delete_port_postcommit]), the entry point of the trunk driver
    ([ensure_subports]) and the part of [initialize] that builds
    [self.kwargs]. Besides calling the network runner a hook signals the
    provisioning blocks and commits a binding; all of these are recorded in
    order. *)

Inductive HookEvent : Type :=
| DeviceEv (call : DeviceCall)
| AddProvisioningComponent (port : string)   (* provisioning_blocks.add_provisioning_component *)
| ProvisioningComplete (port : string)       (* provisioning_blocks.provisioning_complete *)
| SetBinding (segment : string) (vif_type : string).   (* context.set_binding(id, vif_type, {}) *)

Record Hook (A : Type) : Type := mkHook {
  events : list HookEvent;
  result : Res A
}.
Arguments mkHook {A} events result.
Arguments events {A} h.
Arguments result {A} h.

#[global] Instance Hook_ret : MRet Hook := fun A a => mkHook [] (Ok a).
#[global] Instance Hook_bind : MBind Hook := fun A B f m =>
  match result m with
  | Raise e => mkHook (events m) (Raise e)
  | Ok a => let r := f a in mkHook (events m ++ events r) (result r)
  end.

Definition lift_hook {A} (r : Res A) : Hook A := mkHook [] r.

(** A [PortContext]: the port as it is and as it was, its network, the
    segments still to bind (their ids) and the database handle. *)
Record PortContext : Type := {
  current : Port;
  original : Port;
  network_current : Network;
  segments_to_bind : list string;
  _plugin_context : DB
}.

(** A call of [ensure_port] inside a hook: its runner calls, then the binding
    it committed on the context, if any. *)
Definition run_ensure_port (m : M (option (string * string))) : Hook unit :=
  mkHook ((DeviceEv <$> calls m)
         ++ match outcome m with
            | Ok (Some (segment, vif_type)) => [SetBinding segment vif_type]
            | _ => []
            end)
      (match outcome m with
       | Raise e => Raise e
       | Ok _ => Ok tt
       end).

(** [for x in l: body(x)] *)
Fixpoint foreach {A} (l : list A) (body : A -> Hook unit) : Hook unit :=
  match l with
  | [] => mret tt
  | x :: rest => _ ← body x; foreach rest body
  end.

(** [for switch_name, switch_port in mappings: ...], where [mappings] may be
    [None]. *)
Definition for_mappings (mappings : option (list Mapping)) (body : Mapping -> Hook unit)
  : Hook unit :=
  match mappings with
  | None => mkHook [] (Raise TypeError)          (* 'NoneType' object is not iterable *)
  | Some l => foreach l body
  end.

(** [s[n:]] *)
Fixpoint string_drop (n : nat) (s : string) : string :=
  match n, s with
  | O, _ => s
  | S k, EmptyString => EmptyString
  | S k, String _ r => string_drop k r
  end.

Section Hooks.

Variable c : Constants.
Variable ml2config : ML2Config.
Variable gw : DeviceCall -> option string.

(** The loop over the mappings that the three port hooks share, with the
    [delete] flag each of them passes. *)
Definition ensure_mappings (context : PortContext) (port : Port)
           (mappings : option (list Mapping)) (segmentation_id : pyval) (delete : bool)
  : Hook unit :=
  let network := network_current context in
  for_mappings mappings (fun m =>
    run_ensure_port
      (ensure_port c ml2config gw port (_plugin_context context) m.1 m.2
                   (provider_physical_network network)
                   (Some (segments_to_bind context))
                   segmentation_id delete)).

Definition update_port_postcommit (context : PortContext) : Hook unit :=
  if _is_port_normal c (current context) then
    let port := current context in
    let network := network_current context in
    '(mappings, segmentation_id) ← lift_hook (get_switch_meta c ml2config port (Some network));
    ensure_mappings context port mappings segmentation_id false
  else
    bound ← lift_hook (_is_port_bound c (current context));
    if (bound : bool) then
      let port := current context in
      mkHook [ProvisioningComplete (id (port_data port))] (Ok tt)
    else
      bound ← lift_hook (_is_port_bound c (original context));
      if (bound : bool) then
        let port := original context in
        let network := network_current context in
        '(mappings, segmentation_id) ← lift_hook (get_switch_meta c ml2config port
                                                                  (Some network));
        ensure_mappings context port mappings segmentation_id false
      else mret tt.

Definition delete_port_postcommit (context : PortContext) : Hook unit :=
  let port := current context in
  let network := network_current context in
  bound ← lift_hook (_is_port_bound c (current context));
  if (bound : bool) then
    '(mappings, segmentation_id) ← lift_hook (get_switch_meta c ml2config port (Some network));
    ensure_mappings context port mappings segmentation_id true
  else mret tt.

Definition bind_port (context : PortContext) : Hook unit :=
  let port := current context in
  let network := network_current context in
  supported ← lift_hook (_is_port_supported c port);
  if negb supported then mret tt                              (* warning, return *)
  else
    '(mappings, segmentation_id) ← lift_hook (get_switch_meta c ml2config port (Some network));
    for_mappings mappings (fun m =>
      _ ← mkHook [AddProvisioningComponent (id (port_data port))] (Ok tt);
      run_ensure_port
        (ensure_port c ml2config gw port (_plugin_context context) m.1 m.2
                     (provider_physical_network network)
                     (Some (segments_to_bind context))
                     segmentation_id false)).

(** The loop of [ensure_subports]: both branches of its body return, so it
    would never reach a second mapping. [db_at switch_name] is the store as it
    reads while the lock of [switch_name] is held. *)
Definition ensure_subports_loop (port_id : string) (db_at : option string -> DB)
           (mappings : list Mapping) : M unit :=
  match mappings with
  | [] => mret tt
  | (switch_name, switch_port) :: _ =>
      (* with lock: *)
      let db := db_at switch_name in
      match Port_get_object db port_id with
      | Some updated_port =>
          _ ← _set_port_state c ml2config gw (Some (ObjPort updated_port)) db
                              switch_name switch_port;
          mret tt                                              (* return *)
      | None => mret tt                                        (* return *)
      end
  end.

(** [port] is the [Port] object of the store, and is what [get_switch_meta]
    is given. *)
Definition ensure_subports (port_id : string) (db : DB) (db_at : option string -> DB)
  : M unit :=
  match Port_get_object db port_id with
  | None => mret tt
  | Some port =>
      '(mappings, segmentation_id) ← lift (get_switch_meta c ml2config (ObjPort port) None);
      match mappings with
      | None => raise TypeError                 (* 'NoneType' object is not iterable *)
      | Some mappings => ensure_subports_loop port_id db_at mappings
      end
  end.

End Hooks.

(** ** [initialize]: the keyword arguments of each host *)

Section Initialize.

Context {V : Type}.
Variable EXTRA_PARAMS : list string.           (* c.EXTRA_PARAMS *)
Variable CUSTOM_PARAM_PREFIX : string.         (* c.CUSTOM_PARAM_PREFIX *)

(** [key in c.EXTRA_PARAMS or key.startswith(c.CUSTOM_PARAM_PREFIX)] *)
Definition param_selected (key : string) : bool :=
  bool_decide (key ∈ EXTRA_PARAMS) || String.prefix CUSTOM_PARAM_PREFIX key.

(** The name under which a selected key is passed on. *)
Definition param_name (key : string) : string :=
  if String.prefix CUSTOM_PARAM_PREFIX key
  then string_drop (String.length CUSTOM_PARAM_PREFIX) key
  else key.

(** The loop over [inventory[host_name].items()], filling [kwargs[host_name]]. *)
Fixpoint host_kwargs_loop (items : list (string * V)) (acc : gmap string V)
  : gmap string V :=
  match items with
  | [] => acc
  | (key, val) :: rest =>
      if param_selected key
      then host_kwargs_loop rest (<[param_name key := val]> acc)
      else host_kwargs_loop rest acc
  end.

(** The loop over the hosts of the inventory, filling [self.kwargs]. *)
Fixpoint initialize_kwargs (inv : list (string * list (string * V)))
         (kwargs : gmap string (gmap string V)) : gmap string (gmap string V) :=
  match inv with
  | [] => kwargs
  | (host_name, items) :: rest =>
      initialize_kwargs rest (<[host_name := host_kwargs_loop items ∅]> kwargs)
  end.

End Initialize.

(** ** Vocabulary for the hooks *)

(** The switch a call is sent to. *)
Definition call_switch (call : DeviceCall) : string :=
  match call with
  | create_vlan sw _ _ | delete_vlan sw _ _ | conf_access_port sw _ _ _
  | conf_trunk_port sw _ _ _ _ | add_trunk_vlan sw _ _ _ | delete_trunk_vlan sw _ _ _
  | delete_port sw _ _ => sw
  end.

(** The switch port a call configures; [None] for the VLAN operations. *)
Definition call_port (call : DeviceCall) : option (option string) :=
  match call with
  | create_vlan _ _ _ | delete_vlan _ _ _ => None
  | conf_access_port _ p _ _ | conf_trunk_port _ p _ _ _ | add_trunk_vlan _ p _ _
  | delete_trunk_vlan _ p _ _ | delete_port _ p _ => Some p
  end.

(** [a] occurs in [s]. *)
Fixpoint string_has (a : ascii) (s : string) : bool :=
  match s with
  | EmptyString => false
  | String b r => Ascii.eqb a b || string_has a r
  end.

(** [self.kwargs[switch_name]] for a switch of the inventory. *)
Definition kwargs_of (cfg : ML2Config) (switch_name : option string) : Kwargs :=
  match kwargs cfg switch_name with
  | Ok kw => kw
  | Raise _ => []
  end.

(** The bare-metal port of the small deployment as the store has it, and a
    context for binding it. *)
Definition ex_bm_port : PortObj :=
  {| po_data := pd_data ex_bm_data;
     bindings := [ {| host := "node-4"; vnic_type := "baremetal";
                      profile := binding_profile (pd_binding ex_bm_data) |} ] |}.

Definition ex_bm_context : PortContext :=
  {| current := DictPort ex_bm_data; original := DictPort ex_bm_data;
     network_current := ex_network; segments_to_bind := ["segment-1"];
     _plugin_context := ex_db [ex_bm_port] |}.

(** A DHCP port: a supported VNIC type, but neither bare metal nor owned by a
    compute instance. *)
Definition ex_dhcp_port : Port :=
  DictPort
    {| pd_data := {| id := "port-8"; network_id := "net-1";
                     mac_address := "fa:16:3e:00:00:08"; device_owner := "network:dhcp" |};
       pd_binding := {| binding_host_id := "controller-1";
                        binding_vnic_type := "normal"; binding_vif_type := "unbound";
                        binding_profile := ex_no_profile |} |}.

(** A flat network. *)
Definition ex_flat_network : Network :=
  {| net_id := "net-2"; segments := [];
     provider_network_type := PyStr "flat";
     provider_segmentation_id := Some PyNone;
     provider_physical_network := Some "physnet1" |}.

(** A context for the VM port of the small deployment, over a store with the
    given ports. *)
Definition ex_vm_context (ports : list PortObj) : PortContext :=
  {| current := ex_vm_port; original := ex_vm_port; network_current := ex_network;
     segments_to_bind := []; _plugin_context := ex_db ports |}.

(** Closes a goal about a run that made no call and did not raise. *)
Ltac no_calls :=
  let H := fresh in
  split; [intros ? H; inversion H | intros ? H; discriminate].

(** * Properties *)

(** ** Effects *)

Lemma M_bind_eq {A B} (m : M A) (f : A → M B) :
  m ≫= f = match outcome m with
           | Raise e => mkM (calls m) (Raise e)
           | Ok a => mkM (calls m ++ calls (f a)) (outcome (f a))
           end.
Proof. reflexivity. Qed.

Lemma lift_Ok_bind {A B} (a : A) (f : A → M B) : lift (Ok a) ≫= f = f a.
Proof. rewrite M_bind_eq. simpl. by destruct (f a). Qed.

Lemma wrap_net_runr gw call :
  wrap_errors (net_runr gw call) =
  mkM [call] (match gw call with
              | None => Ok tt
              | Some d => Raise (NetworkingAnsibleMechException (RunnerError d))
              end).
Proof. unfold wrap_errors, net_runr; simpl. by destruct (gw call). Qed.

Lemma has_host_lookup cfg sn host :
  lookup_host (inventory cfg) sn = Some host → has_host cfg (Some sn) = true.
Proof. unfold has_host. by intros ->. Qed.

Lemma kwargs_lookup cfg sn host :
  lookup_host (inventory cfg) sn = Some host → kwargs cfg (Some sn) = Ok (host_kwargs host).
Proof. unfold kwargs. by intros ->. Qed.

(** ** Network life cycle *)

Lemma create_loop_spec gw db_at network vlan hosts :
  provider_segmentation_id network = Some vlan →
  let r := create_network_loop gw db_at network hosts in
  (∀ call, call ∈ calls r →
     ∃ host_name host net,
       call = create_vlan host_name vlan (host_kwargs host)
       ∧ (host_name, host) ∈ hosts
       ∧ host_manages_vlans host = true
       ∧ Network_get_object (db_at host_name) (net_id network) = Some net
       ∧ vlan ∈ segment_ids net)
  ∧ raised_by_runner gw r.
Proof.
  intros Hv. induction hosts as [|[host_name host] rest [IH1 IH2]]; cbn [create_network_loop].
  - no_calls.
  - assert (Hrest : ∀ call, call ∈ calls (create_network_loop gw db_at network rest) →
       ∃ host_name0 host0 net,
       call = create_vlan host_name0 vlan (host_kwargs host0)
       ∧ (host_name0, host0) ∈ (host_name, host) :: rest
       ∧ host_manages_vlans host0 = true
       ∧ Network_get_object (db_at host_name0) (net_id network) = Some net
       ∧ vlan ∈ segment_ids net).
    { intros call H. destruct (IH1 call H) as (h & ho & net & -> & ? & ?).
      exists h, ho, net. split; [done|]. split; [by right|done]. }
    destruct (host_manages_vlans host) eqn:Hm; [|split; [exact Hrest|exact IH2]].
    unfold network_item_segmentation_id. rewrite Hv, lift_Ok_bind.
    destruct (is_vlan (provider_network_type network) && truthy vlan);
      [|split; [exact Hrest|exact IH2]].
    destruct (Network_get_object (db_at host_name) (net_id network)) as [net|] eqn:Hnet;
      [|no_calls].
    destruct (bool_decide (vlan ∈ segment_ids net)) eqn:Hin; cbn [negb]; [|no_calls].
    apply bool_decide_eq_true in Hin.
    rewrite M_bind_eq, wrap_net_runr. simpl.
    destruct (gw (create_vlan host_name vlan (host_kwargs host))) as [d|] eqn:Hgw; simpl.
    + split.
      * intros call H. apply list_elem_of_singleton in H as ->.
        exists host_name, host, net. split; [done|]. split; [by left|done].
      * intros e [= <-]. exists (create_vlan host_name vlan (host_kwargs host)), d. done.
    + split.
      * intros call H. apply elem_of_cons in H as [->|H]; [|by apply Hrest].
        exists host_name, host, net. split; [done|]. split; [by left|done].
      * intros e He. destruct (IH2 e He) as (call & d & Hl & ? & ?).
        exists call, d. split; [|done].
        destruct (calls (create_network_loop gw db_at network rest)); [discriminate|done].
Qed.

Lemma create_loop_stale gw db_at network vlan hosts :
  provider_segmentation_id network = Some vlan →
  (∀ host_name, network_is_stale (db_at host_name) network vlan) →
  create_network_loop gw db_at network hosts = mkM [] (Ok tt).
Proof.
  intros Hv Hstale.
  induction hosts as [|[host_name host] rest IH]; cbn [create_network_loop]; [done|].
  destruct (host_manages_vlans host); [|done].
  unfold network_item_segmentation_id. rewrite Hv, lift_Ok_bind.
  destruct (is_vlan (provider_network_type network) && truthy vlan); [|done].
  specialize (Hstale host_name). unfold network_is_stale in Hstale.
  destruct (Network_get_object (db_at host_name) (net_id network)) as [net|]; [|done].
  by rewrite bool_decide_eq_false_2.
Qed.

Lemma segment_recreated_true vlan physnet seg :
  segment_recreated vlan physnet seg = true ↔ segment_matches vlan physnet seg.
Proof.
  unfold segment_recreated, segment_matches.
  rewrite !andb_true_iff, !bool_decide_eq_true, String.eqb_eq. tauto.
Qed.

Lemma delete_check_true db vlan physnet :
  existsb (segment_recreated vlan physnet) (NetworkSegment_get_objects db vlan) = true
  ↔ vlan_still_in_store db vlan physnet.
Proof.
  rewrite existsb_exists. unfold vlan_still_in_store, NetworkSegment_get_objects.
  split.
  - intros (seg & Hin & Hm). apply list_elem_of_In, list_elem_of_filter in Hin as [_ Hin].
    exists seg. split; [done|]. by apply segment_recreated_true.
  - intros (seg & Hin & Hm). exists seg. split; [|by apply segment_recreated_true].
    apply list_elem_of_In, list_elem_of_filter. split; [apply Hm|done].
Qed.

Lemma delete_loop_spec gw db_at network vlan hosts :
  provider_segmentation_id network = Some vlan →
  let r := delete_network_loop gw db_at network hosts in
  (∀ call, call ∈ calls r →
     ∃ host_name host,
       call = delete_vlan host_name vlan (host_kwargs host)
       ∧ (host_name, host) ∈ hosts
       ∧ host_manages_vlans host = true
       ∧ ¬ vlan_still_in_store (db_at host_name) vlan (provider_physical_network network))
  ∧ raised_by_runner gw r.
Proof.
  intros Hv. induction hosts as [|[host_name host] rest [IH1 IH2]]; cbn [delete_network_loop].
  - no_calls.
  - assert (Hrest : ∀ call, call ∈ calls (delete_network_loop gw db_at network rest) →
       ∃ host_name0 host0,
       call = delete_vlan host_name0 vlan (host_kwargs host0)
       ∧ (host_name0, host0) ∈ (host_name, host) :: rest
       ∧ host_manages_vlans host0 = true
       ∧ ¬ vlan_still_in_store (db_at host_name0) vlan (provider_physical_network network)).
    { intros call H. destruct (IH1 call H) as (h & ho & -> & ? & ?).
      exists h, ho. split; [done|]. split; [by right|done]. }
    unfold network_item_segmentation_id. rewrite Hv, lift_Ok_bind.
    destruct (is_vlan (provider_network_type network) && truthy vlan);
      [|split; [exact Hrest|exact IH2]].
    destruct (host_manages_vlans host) eqn:Hm; [|split; [exact Hrest|exact IH2]].
    destruct (existsb _ _) eqn:Hex; [no_calls|].
    assert (Hfresh : ¬ vlan_still_in_store (db_at host_name) vlan
                       (provider_physical_network network)).
    { rewrite <- delete_check_true, Hex. discriminate. }
    rewrite M_bind_eq, wrap_net_runr. simpl.
    destruct (gw (delete_vlan host_name vlan (host_kwargs host))) as [d|] eqn:Hgw; simpl.
    + split.
      * intros call H. apply list_elem_of_singleton in H as ->.
        exists host_name, host. split; [done|]. split; [by left|done].
      * intros e [= <-]. exists (delete_vlan host_name vlan (host_kwargs host)), d. done.
    + split.
      * intros call H. apply elem_of_cons in H as [->|H]; [|by apply Hrest].
        exists host_name, host. split; [done|]. split; [by left|done].
      * intros e He. destruct (IH2 e He) as (call & d & Hl & ? & ?).
        exists call, d. split; [|done].
        destruct (calls (delete_network_loop gw db_at network rest)); [discriminate|done].
Qed.

Lemma delete_loop_discard gw db_at network vlan hosts :
  provider_segmentation_id network = Some vlan →
  (∀ host_name,
      vlan_still_in_store (db_at host_name) vlan (provider_physical_network network)) →
  delete_network_loop gw db_at network hosts = mkM [] (Ok tt).
Proof.
  intros Hv Hstale.
  induction hosts as [|[host_name host] rest IH]; cbn [delete_network_loop]; [done|].
  unfold network_item_segmentation_id. rewrite Hv, lift_Ok_bind.
  destruct (is_vlan (provider_network_type network) && truthy vlan); [|done].
  destruct (host_manages_vlans host); [|done].
  specialize (Hstale host_name). apply delete_check_true in Hstale. by rewrite Hstale.
Qed.

(** C3. [create_network_postcommit] calls [create_vlan] on a switch only if
    the switch is VLAN-managed and the network, re-read under that switch's
    lock, still exists and still carries the segmentation id of the event.
    When the network is gone or no longer carries the id, nothing is called
    and the handler returns normally; the only exceptions that leave the
    handler are failures of a [create_vlan] call. *)
Theorem create_network_postcommit_revalidates cfg gw db_at network vlan :
  provider_segmentation_id network = Some vlan →
  let r := create_network_postcommit cfg gw db_at network in
  (∀ call, call ∈ calls r →
     ∃ host_name host net,
       call = create_vlan host_name vlan (host_kwargs host)
       ∧ (host_name, host) ∈ inventory cfg
       ∧ host_manages_vlans host = true
       ∧ Network_get_object (db_at host_name) (net_id network) = Some net
       ∧ vlan ∈ segment_ids net)
  ∧ ((∀ host_name, network_is_stale (db_at host_name) network vlan) → r = mkM [] (Ok tt))
  ∧ raised_by_runner gw r.
Proof.
  intros Hv. unfold create_network_postcommit.
  destruct (create_loop_spec gw db_at network vlan (inventory cfg) Hv) as [H1 H2].
  split; [exact H1|]. split; [|exact H2].
  intros Hstale. by apply (create_loop_stale _ _ _ vlan).
Qed.

Lemma create_network_postcommit_revalidates_witness :
  provider_segmentation_id ex_network = Some (PyInt 100)
  ∧ create_network_postcommit ex_config ex_gw (fun _ => ex_db_empty) ex_network
    = mkM [] (Ok tt).
Proof.
  split; [reflexivity|].
  apply (create_network_postcommit_revalidates
           ex_config ex_gw (fun _ => ex_db_empty) ex_network (PyInt 100) eq_refl).
  intros host_name. exact I.
Defined.

(** C4. [delete_network_postcommit] calls [delete_vlan] on a switch only if
    the switch is VLAN-managed and, under that switch's lock, no segment of
    the store has the segmentation id, the physical network and the type
    [vlan] of the deleted network. When such a segment exists, nothing is
    called and the handler returns normally; the only exceptions that leave
    the handler are failures of a [delete_vlan] call. *)
Theorem delete_network_postcommit_revalidates cfg gw db_at network vlan :
  provider_segmentation_id network = Some vlan →
  let r := delete_network_postcommit cfg gw db_at network in
  let physnet := provider_physical_network network in
  (∀ call, call ∈ calls r →
     ∃ host_name host,
       call = delete_vlan host_name vlan (host_kwargs host)
       ∧ (host_name, host) ∈ inventory cfg
       ∧ host_manages_vlans host = true
       ∧ ¬ vlan_still_in_store (db_at host_name) vlan physnet)
  ∧ ((∀ host_name, vlan_still_in_store (db_at host_name) vlan physnet) → r = mkM [] (Ok tt))
  ∧ raised_by_runner gw r.
Proof.
  intros Hv. unfold delete_network_postcommit.
  destruct (delete_loop_spec gw db_at network vlan (inventory cfg) Hv) as [H1 H2].
  split; [exact H1|]. split; [|exact H2].
  intros Hstale. by apply (delete_loop_discard _ _ _ vlan).
Qed.

Lemma ex_vlan_still_in_store :
  vlan_still_in_store (ex_db []) (PyInt 100) (Some "physnet1").
Proof. exists ex_segment. split; [by left|]. by repeat split. Qed.

Lemma delete_network_postcommit_revalidates_witness :
  provider_segmentation_id ex_network = Some (PyInt 100)
  ∧ delete_network_postcommit ex_config ex_gw (fun _ => ex_db []) ex_network
    = mkM [] (Ok tt).
Proof.
  split; [reflexivity|].
  apply (delete_network_postcommit_revalidates
           ex_config ex_gw (fun _ => ex_db []) ex_network (PyInt 100) eq_refl).
  intros host_name. exact ex_vlan_still_in_store.
Defined.

(** *** The [manage_vlans] flag *)

Lemma host_manages_vlans_true host :
  host_manages_vlans host = true ↔ vlan_managed host.
Proof.
  unfold host_manages_vlans, vlan_managed.
  destruct (manage_vlans host) as [[]|]; simpl; split; congruence.
Qed.

Lemma host_manages_vlans_false host :
  host_manages_vlans host = false ↔ manage_vlans host = Some false.
Proof.
  unfold host_manages_vlans.
  destruct (manage_vlans host) as [[]|]; simpl; split; congruence.
Qed.

Lemma eligible_hosts_cons nh hosts :
  eligible_hosts (nh :: hosts) =
  if host_manages_vlans nh.2 then nh :: eligible_hosts hosts else eligible_hosts hosts.
Proof.
  unfold eligible_hosts. rewrite filter_cons.
  destruct (host_manages_vlans nh.2) eqn:H.
  - apply host_manages_vlans_true in H. by rewrite decide_True.
  - rewrite decide_False; [done|]. rewrite <- host_manages_vlans_true, H. discriminate.
Qed.

Lemma create_loop_all gw db_at network vlan hosts :
  (∀ call, gw call = None) →
  provider_segmentation_id network = Some vlan →
  provider_network_type network = PyStr "vlan" →
  truthy vlan = true →
  (∀ host_name, ¬ network_is_stale (db_at host_name) network vlan) →
  create_network_loop gw db_at network hosts = mkM (create_calls vlan hosts) (Ok tt).
Proof.
  intros Hgw Hv Ht Htr Hfresh. unfold create_calls.
  induction hosts as [|[host_name host] rest IH]; cbn [create_network_loop]; [done|].
  rewrite eligible_hosts_cons. cbn [snd].
  destruct (host_manages_vlans host); [|done].
  unfold network_item_segmentation_id. rewrite Hv, lift_Ok_bind.
  unfold is_vlan. rewrite Ht, Htr, bool_decide_eq_true_2 by done. cbn [andb].
  specialize (Hfresh host_name). unfold network_is_stale in Hfresh.
  destruct (Network_get_object (db_at host_name) (net_id network)) as [net|]; [|done].
  rewrite bool_decide_eq_true_2 by (by apply dec_stable). cbn [negb].
  rewrite M_bind_eq, wrap_net_runr, Hgw, IH. done.
Qed.

Lemma delete_loop_all gw db_at network vlan hosts :
  (∀ call, gw call = None) →
  provider_segmentation_id network = Some vlan →
  provider_network_type network = PyStr "vlan" →
  truthy vlan = true →
  (∀ host_name,
      ¬ vlan_still_in_store (db_at host_name) vlan (provider_physical_network network)) →
  delete_network_loop gw db_at network hosts = mkM (delete_calls vlan hosts) (Ok tt).
Proof.
  intros Hgw Hv Ht Htr Hfresh. unfold delete_calls.
  induction hosts as [|[host_name host] rest IH]; cbn [delete_network_loop]; [done|].
  rewrite eligible_hosts_cons. cbn [snd].
  unfold network_item_segmentation_id. rewrite Hv, lift_Ok_bind.
  unfold is_vlan. rewrite Ht, Htr, bool_decide_eq_true_2 by done. cbn [andb].
  destruct (host_manages_vlans host); [|done].
  specialize (Hfresh host_name). rewrite <- delete_check_true in Hfresh.
  apply not_true_is_false in Hfresh. rewrite Hfresh.
  rewrite M_bind_eq, wrap_net_runr, Hgw, IH. done.
Qed.

(** C10. The [manage_vlans] flag defaults to enabled: a host entry without
    the flag is VLAN-managed, and a host is skipped exactly when its flag is
    present and false. For a VLAN network whose event is not stale and a
    runner that does not fail, both handlers call every inventory switch
    whose flag is not explicitly false, in inventory order, and no other; in
    particular every switch without the flag gets its [create_vlan] and its
    [delete_vlan]. *)
Theorem manage_vlans_defaults_to_enabled cfg gw db_created db_deleted network vlan :
  (∀ call, gw call = None) →
  provider_segmentation_id network = Some vlan →
  provider_network_type network = PyStr "vlan" →
  truthy vlan = true →
  (∀ host_name, ¬ network_is_stale (db_created host_name) network vlan) →
  (∀ host_name,
      ¬ vlan_still_in_store (db_deleted host_name) vlan (provider_physical_network network)) →
  let created := calls (create_network_postcommit cfg gw db_created network) in
  let deleted := calls (delete_network_postcommit cfg gw db_deleted network) in
  (∀ host, manage_vlans host = None → host_manages_vlans host = true)
  ∧ (∀ host, host_manages_vlans host = false ↔ manage_vlans host = Some false)
  ∧ created = create_calls vlan (inventory cfg)
  ∧ deleted = delete_calls vlan (inventory cfg)
  ∧ (∀ host_name host,
       (host_name, host) ∈ inventory cfg → manage_vlans host = None →
       create_vlan host_name vlan (host_kwargs host) ∈ created
       ∧ delete_vlan host_name vlan (host_kwargs host) ∈ deleted).
Proof.
  intros Hgw Hv Ht Htr Hc Hd. cbv zeta.
  unfold create_network_postcommit, delete_network_postcommit.
  rewrite (create_loop_all gw db_created network vlan (inventory cfg)) by done.
  rewrite (delete_loop_all gw db_deleted network vlan (inventory cfg)) by done.
  cbn [calls].
  split; [by unfold host_manages_vlans; intros host ->|].
  split; [apply host_manages_vlans_false|].
  split; [done|]. split; [done|].
  intros host_name host Hin Hnone.
  assert (He : (host_name, host) ∈ eligible_hosts (inventory cfg)).
  { apply list_elem_of_filter. split; [|done]. unfold vlan_managed. cbn. by rewrite Hnone. }
  unfold create_calls, delete_calls. split.
  - apply (list_elem_of_fmap_2 (fun nh => create_vlan nh.1 vlan (host_kwargs nh.2)) _ _ He).
  - apply (list_elem_of_fmap_2 (fun nh => delete_vlan nh.1 vlan (host_kwargs nh.2)) _ _ He).
Qed.

Lemma ex_network_not_stale : ¬ network_is_stale (ex_db []) ex_network (PyInt 100).
Proof. unfold network_is_stale. cbn. intros H. apply H. by left. Qed.

Lemma ex_vlan_not_in_store :
  ¬ vlan_still_in_store ex_db_empty (PyInt 100) (provider_physical_network ex_network).
Proof. intros (seg & Hin & _). inversion Hin. Qed.

Lemma manage_vlans_defaults_to_enabled_witness :
  calls (create_network_postcommit ex_config ex_gw (fun _ => ex_db []) ex_network)
  = [create_vlan "sw1" (PyInt 100) (host_kwargs ex_sw1)]
  ∧ calls (delete_network_postcommit ex_config ex_gw (fun _ => ex_db_empty) ex_network)
    = [delete_vlan "sw1" (PyInt 100) (host_kwargs ex_sw1)].
Proof.
  pose proof (manage_vlans_defaults_to_enabled
                ex_config ex_gw (fun _ => ex_db []) (fun _ => ex_db_empty)
                ex_network (PyInt 100)
                (fun _ => eq_refl) eq_refl eq_refl eq_refl
                (fun _ => ex_network_not_stale) (fun _ => ex_vlan_not_in_store))
    as (_ & _ & Hc & Hd & _).
  split; [exact Hc | exact Hd].
Defined.

(** ** Setting the port state *)

Lemma set_port_state_run c cfg gw db port sn sp host network seg0 :
  reaches_device_call cfg db port sn sp host network seg0 →
  let call := port_state_call c db port sn sp (segmentation_id seg0) (host_kwargs host) in
  _set_port_state c cfg gw (Some port) db (Some sn) sp =
  mkM [call] (match gw call with
              | None => Ok true
              | Some d => Raise (NetworkingAnsibleMechException (RunnerError d))
              end).
Proof.
  intros (Hsn & Hsp & Hhost & Hnet & Hseg). unfold _set_port_state, port_state_call.
  rewrite Hsn, Hsp, (has_host_lookup _ _ _ Hhost), Hnet. cbn [negb orb].
  unfold primary_segmentation_id.
  destruct (segments network) as [|s0 rest]; [discriminate|]. injection Hseg as ->.
  rewrite lift_Ok_bind, (kwargs_lookup _ _ _ Hhost), lift_Ok_bind. cbn [default].
  unfold wrap_errors, net_runr.
  destruct (Trunk_get_object db (id (port_data port))) as [trunk|].
  - rewrite M_bind_eq. cbn. by destruct (gw _).
  - destruct (_is_port_normal c port); rewrite M_bind_eq; cbn; by destruct (gw _).
Qed.

(** C2. When [_set_port_state] reaches its device-call stage it issues
    exactly one call: with a trunk for the port, [conf_trunk_port] with the
    network's primary segmentation id and the segmentation ids of all the
    trunk's sub-ports; without a trunk, [add_trunk_vlan] with the primary
    segmentation id for a VM port and [conf_access_port] with it for any
    other port. *)
Theorem set_port_state_device_call c cfg gw db port sn sp host network seg0 :
  reaches_device_call cfg db port sn sp host network seg0 →
  let r := _set_port_state c cfg gw (Some port) db (Some sn) sp in
  let vlan := segmentation_id seg0 in
  let kw := host_kwargs host in
  (∀ trunk, Trunk_get_object db (id (port_data port)) = Some trunk →
     calls r = [conf_trunk_port sn sp vlan (sp_segmentation_id <$> sub_ports trunk) kw]
     ∧ ∀ v, v ∈ vlan :: (sp_segmentation_id <$> sub_ports trunk)
            ↔ v = vlan ∨ ∃ sub, sub ∈ sub_ports trunk ∧ sp_segmentation_id sub = v)
  ∧ (Trunk_get_object db (id (port_data port)) = None →
     _is_port_normal c port = true →
     calls r = [add_trunk_vlan sn sp vlan kw])
  ∧ (Trunk_get_object db (id (port_data port)) = None →
     _is_port_normal c port = false →
     calls r = [conf_access_port sn sp vlan kw]).
Proof.
  intros Hreach. cbv zeta. rewrite (set_port_state_run c cfg gw _ _ _ _ _ _ _ Hreach).
  cbn [calls]. unfold port_state_call. split; [|split].
  - intros trunk ->. split; [done|]. intros v. rewrite elem_of_cons, list_elem_of_fmap.
    split; (intros [?|(sub & ? & ?)]; [by left|right; by exists sub]).
  - by intros -> ->.
  - by intros -> ->.
Qed.

Lemma ex_reaches_device_call (db : DB) :
  db_networks db = [ex_network] →
  reaches_device_call ex_config db (DictPort ex_bm_data) "sw1" (Some "Eth1/1")
                      ex_sw1 ex_network ex_segment.
Proof.
  intros Hn. unfold reaches_device_call, Network_get_object. rewrite Hn. by repeat split.
Qed.

Lemma set_port_state_device_call_witness :
  calls (_set_port_state ex_consts ex_config ex_gw (Some (DictPort ex_bm_data)) ex_trunk_db
                         (Some "sw1") (Some "Eth1/1"))
  = [conf_trunk_port "sw1" (Some "Eth1/1") (PyInt 100) [PyInt 60] (host_kwargs ex_sw1)]
  ∧ calls (_set_port_state ex_consts ex_config ex_gw (Some (DictPort ex_bm_data)) (ex_db [])
                           (Some "sw1") (Some "Eth1/1"))
    = [conf_access_port "sw1" (Some "Eth1/1") (PyInt 100) (host_kwargs ex_sw1)].
Proof.
  split.
  - destruct (set_port_state_device_call ex_consts ex_config ex_gw ex_trunk_db
                (DictPort ex_bm_data) "sw1" (Some "Eth1/1") ex_sw1 ex_network ex_segment
                (ex_reaches_device_call ex_trunk_db eq_refl)) as (Htrunk & _ & _).
    exact (proj1 (Htrunk _ eq_refl)).
  - destruct (set_port_state_device_call ex_consts ex_config ex_gw (ex_db [])
                (DictPort ex_bm_data) "sw1" (Some "Eth1/1") ex_sw1 ex_network ex_segment
                (ex_reaches_device_call (ex_db []) eq_refl)) as (_ & _ & Haccess).
    exact (Haccess eq_refl eq_refl).
Defined.

(** *** The checks before the device call *)

Lemma set_port_state_null_port c cfg gw db sn sp :
  _set_port_state c cfg gw None db sn sp = mkM [] (Raise (MechanismDriverError NullPort)).
Proof. reflexivity. Qed.

Lemma set_port_state_missing_switch c cfg gw db port sn sp :
  truthy_str sn = false ∨ truthy_str sp = false →
  _set_port_state c cfg gw (Some port) db sn sp =
  mkM [] (Raise (MechanismDriverError (NoSwitchNameOrPort sn sp))).
Proof.
  intros H. unfold _set_port_state.
  destruct H as [-> | ->]; [done|]. by rewrite orb_true_r.
Qed.

Lemma set_port_state_unknown_switch c cfg gw db port sn sp :
  truthy_str sn = true → truthy_str sp = true → has_host cfg sn = false →
  _set_port_state c cfg gw (Some port) db sn sp =
  mkM [] (Raise (MechanismDriverError (SwitchNotInInventory sn))).
Proof. intros Hn Hp Hh. unfold _set_port_state. by rewrite Hn, Hp, Hh. Qed.

(** For a port object, a network that cannot be read gives the error
    intended. *)
Lemma set_port_state_no_network_obj c cfg gw db o sn sp :
  truthy_str sn = true → truthy_str sp = true → has_host cfg sn = true →
  Network_get_object db (network_id (po_data o)) = None →
  _set_port_state c cfg gw (Some (ObjPort o)) db sn sp =
  mkM [] (Raise (MechanismDriverError (NoNetworkForPort (id (po_data o))))).
Proof.
  intros Hn Hp Hh Hnet. unfold _set_port_state. cbn [port_data].
  by rewrite Hn, Hp, Hh, Hnet.
Qed.

(** For a port dictionary, building the message fails first: [port.id] on a
    [dict]. *)
Lemma set_port_state_no_network_dict c cfg gw db d sn sp :
  truthy_str sn = true → truthy_str sp = true → has_host cfg sn = true →
  Network_get_object db (network_id (pd_data d)) = None →
  _set_port_state c cfg gw (Some (DictPort d)) db sn sp = mkM [] (Raise AttributeError).
Proof.
  intros Hn Hp Hh Hnet. unfold _set_port_state. cbn [port_data].
  by rewrite Hn, Hp, Hh, Hnet.
Qed.

(** The only other way to stop before the device call: a network without
    segments. *)
Lemma set_port_state_no_segments c cfg gw db port sn sp network :
  truthy_str sn = true → truthy_str sp = true → has_host cfg sn = true →
  Network_get_object db (network_id (port_data port)) = Some network →
  segments network = [] →
  _set_port_state c cfg gw (Some port) db sn sp = mkM [] (Raise IndexError).
Proof.
  intros Hn Hp Hh Hnet Hseg. unfold _set_port_state, primary_segmentation_id.
  by rewrite Hn, Hp, Hh, Hnet, Hseg.
Qed.

(** C9, at the input where the driver departs from it: a VM port (a
    dictionary, as [update_port_postcommit] passes it) whose network has been
    deleted. The switch is known and both names are given, so the checks
    before it pass; the network is not found and [_set_port_state] ends with
    [AttributeError], not with the [MechanismDriverError] about the network.
    No device call is made. *)
Theorem set_port_state_dict_port_missing_network :
  _set_port_state ex_consts ex_config ex_gw (Some ex_vm_port) ex_db_empty
                  (Some "sw1") (Some "eth1")
  = mkM [] (Raise AttributeError)
  ∧ Network_get_object ex_db_empty (network_id (port_data ex_vm_port)) = None
  ∧ has_host ex_config (Some "sw1") = true.
Proof. split; [reflexivity|]. split; reflexivity. Qed.

(** *** Idempotence *)

(** The calls issued do not depend on how the runner answers. *)
Lemma set_port_state_calls_indep c cfg gw1 gw2 port db sn sp :
  calls (_set_port_state c cfg gw1 port db sn sp)
  = calls (_set_port_state c cfg gw2 port db sn sp).
Proof.
  unfold _set_port_state. destruct port as [port|]; [|done].
  destruct (negb (truthy_str sn) || negb (truthy_str sp)); [done|].
  destruct (negb (has_host cfg sn)); [done|].
  destruct (Network_get_object db (network_id (port_data port))) as [network|]; [|done].
  destruct (primary_segmentation_id network) as [e|v]; [done|]. rewrite !lift_Ok_bind.
  destruct (kwargs cfg sn) as [e|kw]; [done|].
  unfold wrap_errors. rewrite !lift_Ok_bind.
  destruct (Trunk_get_object db (id (port_data port))) as [trunk|];
    [|destruct (_is_port_normal c port)];
    rewrite !M_bind_eq; unfold net_runr; cbn; by destruct (gw1 _), (gw2 _).
Qed.

Lemma set_port_state_calls_length c cfg gw port db sn sp :
  (List.length (calls (_set_port_state c cfg gw port db sn sp)) ≤ 1)%nat.
Proof.
  unfold _set_port_state. destruct port as [port|]; [|simpl; lia].
  destruct (negb (truthy_str sn) || negb (truthy_str sp)); [simpl; lia|].
  destruct (negb (has_host cfg sn)); [simpl; lia|].
  destruct (Network_get_object db (network_id (port_data port))) as [network|].
  2:{ destruct (port_attr_id port); simpl; lia. }
  destruct (primary_segmentation_id network) as [e|v]; [simpl; lia|]. rewrite !lift_Ok_bind.
  destruct (kwargs cfg sn) as [e|kw]; [simpl; lia|].
  unfold wrap_errors. rewrite !lift_Ok_bind.
  destruct (Trunk_get_object db (id (port_data port))) as [trunk|];
    [|destruct (_is_port_normal c port)];
    rewrite !M_bind_eq; unfold net_runr; cbn; destruct (gw _); simpl; lia.
Qed.

(** C5. [_set_port_state] is idempotent. Run twice on the same port, switch
    and switch port with the same store, whatever the runner answers each
    time, it issues the same calls with the same arguments; and on any device
    on which each runner operation is idempotent, the calls of the two runs
    together leave the device where the calls of the first run leave it. *)
Theorem set_port_state_idempotent {S} (apply : DeviceCall → S → S)
        c cfg gw1 gw2 port db sn sp :
  (∀ call s, apply call (apply call s) = apply call s) →
  let first := _set_port_state c cfg gw1 port db sn sp in
  let second := _set_port_state c cfg gw2 port db sn sp in
  calls second = calls first
  ∧ (gw1 = gw2 → second = first)
  ∧ ∀ s, run_calls apply (calls first ++ calls second) s = run_calls apply (calls first) s.
Proof.
  intros Hidem. cbv zeta.
  rewrite (set_port_state_calls_indep c cfg gw2 gw1).
  split; [done|]. split; [by intros ->|]. intros s.
  pose proof (set_port_state_calls_length c cfg gw1 port db sn sp) as Hlen.
  destruct (calls (_set_port_state c cfg gw1 port db sn sp)) as [|call [|call' l]].
  - done.
  - unfold run_calls. cbn. apply Hidem.
  - simpl in Hlen. lia.
Qed.

Lemma add_vlan_idem v l : add_vlan v (add_vlan v l) = add_vlan v l.
Proof.
  unfold add_vlan. destruct (bool_decide (v ∈ l)) eqn:H; rewrite ?H; [done|].
  rewrite bool_decide_eq_true_2; [done|]. apply elem_of_app. right. by left.
Qed.

Lemma remove_vlan_idem v l : remove_vlan v (remove_vlan v l) = remove_vlan v l.
Proof.
  unfold remove_vlan. induction l as [|x l IH]; [done|].
  rewrite filter_cons. destruct (decide (x ≠ v)); [|done].
  rewrite filter_cons, decide_True by done. by rewrite IH.
Qed.

(** Every operation of the reference switch is idempotent. *)
Lemma apply_call_idem call s : apply_call call (apply_call call s) = apply_call call s.
Proof.
  destruct s as [vlans ports].
  destruct call; unfold apply_call; cbn [sw_vlans sw_ports]; f_equal.
  - by rewrite lookup_insert_eq, insert_insert_eq; cbn [from_option Datatypes.id]; rewrite add_vlan_idem.
  - by rewrite lookup_insert_eq, insert_insert_eq; cbn [from_option Datatypes.id]; rewrite remove_vlan_idem.
  - by rewrite insert_insert_eq.
  - by rewrite insert_insert_eq.
  - destruct (ports !! (switch, sport)) as [[v|n ms]|] eqn:Hp;
      rewrite lookup_insert_eq, insert_insert_eq; rewrite ?add_vlan_idem; try done.
    all: unfold add_vlan; by rewrite bool_decide_eq_true_2 by (by left).
  - destruct (ports !! (switch, sport)) as [[v|n ms]|] eqn:Hp; rewrite ?Hp; try done.
    rewrite lookup_insert_eq. cbn. by rewrite insert_insert_eq, remove_vlan_idem.
  - apply delete_delete_eq.
Qed.

Lemma set_port_state_idempotent_witness :
  let first := _set_port_state ex_consts ex_config ex_gw (Some (DictPort ex_bm_data))
                               ex_trunk_db (Some "sw1") (Some "Eth1/1") in
  let s := {| sw_vlans := ∅; sw_ports := ∅ |} in
  calls first
  = [conf_trunk_port "sw1" (Some "Eth1/1") (PyInt 100) [PyInt 60] (host_kwargs ex_sw1)]
  ∧ run_calls apply_call (calls first ++ calls first) s
    = run_calls apply_call (calls first) s.
Proof.
  split; [reflexivity|].
  exact (proj2 (proj2 (set_port_state_idempotent
                         apply_call ex_consts ex_config ex_gw ex_gw
                         (Some (DictPort ex_bm_data)) ex_trunk_db
                         (Some "sw1") (Some "Eth1/1") apply_call_idem))
               {| sw_vlans := ∅; sw_ports := ∅ |}).
Defined.

(** ** Topology resolution *)

Lemma get_port_lli_profile c port pr :
  port_vnic_type port = Some portbindings.VNIC_BAREMETAL →
  portbindings.VNIC_BAREMETAL ∈ SUPPORTED_TYPES c →
  port_profile port = Some pr →
  _get_port_lli c (Some port) = Ok (local_link_information pr).
Proof.
  intros Hbm Hsup Hpr. destruct port as [d|o]; simpl in *.
  - injection Hpr as <-. injection Hbm as Hbm. unfold _is_port_supported. cbn.
    rewrite Hbm, bool_decide_eq_true_2 by done. done.
  - destruct (bindings o) as [|b bs]; [discriminate|]. simpl in Hpr. by injection Hpr as <-.
Qed.

(** C7. For a bare-metal port (bare metal being a supported VNIC type),
    [_switch_meta_from_link_info] raises [LocalLinkInfoMissingException]
    whenever the binding profile has no link information, whatever the other
    fields of the port. With link information it returns exactly one mapping;
    its switch port is the [port_id] of the first entry as it stands, and its
    switch name is [switch_info] when that is given, otherwise the entry of
    [mac_map] for the upper-cased [switch_id]. *)
Theorem switch_meta_from_link_info_resolution c cfg port network pr :
  port_vnic_type port = Some portbindings.VNIC_BAREMETAL →
  portbindings.VNIC_BAREMETAL ∈ SUPPORTED_TYPES c →
  port_profile port = Some pr →
  match local_link_information pr with
  | Some (lli0 :: _) =>
      let switch_mac := Str.upper (default "" (switch_id lli0)) in
      ∃ switch_name,
        _switch_meta_from_link_info c cfg port network
        = Ok ([(switch_name, port_id lli0)], network_segmentation_id network)
        ∧ (truthy_str (switch_info lli0) = true → switch_name = switch_info lli0)
        ∧ (switch_info lli0 = None → switch_name = mac_map cfg !! switch_mac)
        ∧ (truthy_str (switch_info lli0) = false →
           ∀ name, mac_map cfg !! switch_mac = Some name → switch_name = Some name)
  | _ => _switch_meta_from_link_info c cfg port network
         = Raise (LocalLinkInfoMissingException (id (port_data port)))
  end.
Proof.
  intros Hbm Hsup Hpr. unfold _switch_meta_from_link_info.
  rewrite (get_port_lli_profile _ _ _ Hbm Hsup Hpr).
  destruct (local_link_information pr) as [[|lli0 rest]|]; [done| |done].
  cbn. eexists. split; [reflexivity|].
  destruct (truthy_str (switch_info lli0)) eqn:Ht; cbn.
  - split; [done|]. split; [|done]. intros Hn. rewrite Hn in Ht. discriminate.
  - split; [done|]. split.
    + intros ->. by destruct (mac_map cfg !! _).
    + intros _ name ->. done.
Qed.

Lemma ex_baremetal_supported : portbindings.VNIC_BAREMETAL ∈ SUPPORTED_TYPES ex_consts.
Proof. by left. Qed.

Lemma switch_meta_from_link_info_resolution_witness :
  ∃ switch_name,
    _switch_meta_from_link_info ex_consts ex_config (DictPort ex_bm_data) (Some ex_network)
    = Ok ([(switch_name, Some "Eth1/1")], PyInt 100)
    ∧ (switch_info ex_lli = None
       → switch_name = mac_map ex_config !! Str.upper "aa:bb:cc:dd:ee:ff").
Proof.
  destruct (switch_meta_from_link_info_resolution
              ex_consts ex_config (DictPort ex_bm_data) (Some ex_network)
              (binding_profile (pd_binding ex_bm_data))
              eq_refl ex_baremetal_supported eq_refl)
    as (switch_name & Hrun & _ & Hmac & _).
  exists switch_name. split; [exact Hrun | exact Hmac].
Defined.

(** The same port without link information: the resolution fails. *)
Example ex_link_info_missing :
  _switch_meta_from_link_info
    ex_consts ex_config
    (DictPort {| pd_data := pd_data ex_bm_data;
                 pd_binding := {| binding_host_id := "node-4";
                                  binding_vnic_type := "baremetal";
                                  binding_vif_type := "other";
                                  binding_profile := ex_no_profile |} |})
    (Some ex_network)
  = Raise (LocalLinkInfoMissingException "port-4").
Proof. reflexivity. Qed.

(** The device address of a virtual function, as it goes into the key. *)
Example ex_normalize_pci_slot :
  normalize_pci_slot "0000:03:10.1" = "0310"
  ∧ _build_sriov_host_id (DictPort (ex_vf_data "port-6" "1")) "compute-1"
    = Ok "compute-1-0310".
Proof. split; reflexivity. Qed.

Lemma append_inj_r (p a b : string) : p +:+ a = p +:+ b → a = b.
Proof. induction p as [|x p IH]; simpl; [done|]. intros [= H]. by apply IH. Qed.

(** C8, as the driver has it. [_switch_meta_from_port_host_id] looks the
    port up under its key: the binding host id and, for a direct port, the
    host id, a dash and the device address with the PCI function dropped and
    the domain prefix and the colons removed. A key that is not in the table
    gives the empty list of mappings and no error. Two direct ports of one
    host get different keys exactly when their normalised device addresses
    differ. *)
Theorem switch_meta_from_port_host_id_key cfg port network :
  (∀ b, binding_items port = Ok b → _is_port_direct port = Ok false →
     mapping_table_key port = Ok (binding_host_id b))
  ∧ (∀ b pci, binding_items port = Ok b → _is_port_direct port = Ok true →
       pci_slot (binding_profile b) = Some pci →
       mapping_table_key port
       = Ok (binding_host_id b +:+ "-" +:+ normalize_pci_slot pci))
  ∧ (∀ key, mapping_table_key port = Ok key →
       _switch_meta_from_port_host_id cfg port network
       = Ok (default [] (port_mappings cfg !! key), network_segmentation_id network)
       ∧ (port_mappings cfg !! key = None →
          _switch_meta_from_port_host_id cfg port network
          = Ok ([], network_segmentation_id network)))
  ∧ (∀ port' b b' pci pci',
       binding_items port = Ok b → binding_items port' = Ok b' →
       _is_port_direct port = Ok true → _is_port_direct port' = Ok true →
       binding_host_id b = binding_host_id b' →
       pci_slot (binding_profile b) = Some pci →
       pci_slot (binding_profile b') = Some pci' →
       (mapping_table_key port = mapping_table_key port'
        ↔ normalize_pci_slot pci = normalize_pci_slot pci')).
Proof.
  unfold mapping_table_key, _switch_meta_from_port_host_id, _build_sriov_host_id.
  split; [by intros b -> ->|].
  split; [intros b pci -> -> Hpci; cbn; by rewrite Hpci|]. split.
  - intros key Hkey. destruct (binding_items port) as [e|b]; [discriminate|].
    cbn in Hkey |- *. destruct (_is_port_direct port) as [e|[]]; [discriminate| |];
      cbn in Hkey |- *.
    + destruct (pci_slot (binding_profile b)); [|discriminate].
      injection Hkey as <-. cbn. split; [done|]. by intros ->.
    + injection Hkey as <-. cbn. split; [done|]. by intros ->.
  - intros port' b b' pci pci' -> -> -> -> Hhost Hpci Hpci'. cbn.
    rewrite Hpci, Hpci', Hhost. split.
    + intros [= H]. by apply append_inj_r, append_inj_r in H.
    + by intros ->.
Qed.

(** C8 as stated fails: two direct ports of one host on two virtual functions
    of the same device have different device addresses and the same key. *)
Lemma direct_port_keys_collide :
  let vf0 := DictPort (ex_vf_data "port-2" "0") in
  let vf1 := DictPort (ex_vf_data "port-6" "1") in
  let b0 := pd_binding (ex_vf_data "port-2" "0") in
  let b1 := pd_binding (ex_vf_data "port-6" "1") in
  binding_items vf0 = Ok b0 ∧ binding_items vf1 = Ok b1
  ∧ _is_port_direct vf0 = Ok true ∧ _is_port_direct vf1 = Ok true
  ∧ binding_host_id b0 = binding_host_id b1
  ∧ pci_slot (binding_profile b0) = Some "0000:03:10.0"
  ∧ pci_slot (binding_profile b1) = Some "0000:03:10.1"
  ∧ mapping_table_key vf0 = Ok "compute-1-0310"
  ∧ mapping_table_key vf1 = Ok "compute-1-0310".
Proof. cbv zeta. repeat split. Qed.

(** ** Deleted ports *)

Lemma segment_on_physnet_exists physnet segs :
  existsb (segment_on_physnet physnet) segs = true
  ↔ ∃ seg, seg ∈ segs ∧ physical_network seg = physnet ∧ network_type seg = "vlan".
Proof.
  rewrite existsb_exists. unfold segment_on_physnet. split.
  - intros (seg & Hin & H). apply andb_true_iff in H as [H1 H2].
    exists seg. rewrite list_elem_of_In.
    by apply bool_decide_eq_true in H1; apply String.eqb_eq in H2.
  - intros (seg & Hin & H1 & H2). exists seg. rewrite <- list_elem_of_In. split; [done|].
    apply andb_true_iff. split; [by apply bool_decide_eq_true|by apply String.eqb_eq].
Qed.

Lemma deleted_port_in_use_loop_spec c physnet db mports :
  ∃ b, deleted_port_in_use_loop c physnet db mports = Ok b
       ∧ (b = true ↔ ∃ q, q ∈ mports ∧ port_in_use_on db physnet q).
Proof.
  induction mports as [|q rest (b & IH & Hb)]; cbn [deleted_port_in_use_loop].
  - exists false. split; [done|]. split; [done|]. intros (q & H & _). inversion H.
  - assert (Hskip : ¬ port_in_use_on db physnet q →
                    ∃ b, deleted_port_in_use_loop c physnet db rest = Ok b
                         ∧ (b = true ↔ ∃ q0, q0 ∈ q :: rest ∧ port_in_use_on db physnet q0)).
    { intros Hq. exists b. split; [done|]. rewrite Hb. split.
      - intros (q0 & ? & ?). exists q0. split; [by right|done].
      - intros (q0 & [->|?]%elem_of_cons & ?); [done|]. by exists q0. }
    destruct (bindings q) as [|b0 bs] eqn:Hbs.
    { apply Hskip. intros (? & ? & ? & H & _). rewrite Hbs in H. discriminate. }
    cbn [_get_port_lli]. rewrite Hbs. cbn [mbind Res_bind].
    destruct (lli_truthy (local_link_information (profile b0))) eqn:Hl.
    2:{ apply Hskip. intros (? & ? & ? & H & H' & _). rewrite Hbs in H.
        injection H as <-. congruence. }
    destruct (Network_get_object db (network_id (po_data q))) as [net|] eqn:Hnet.
    2:{ apply Hskip. intros (? & ? & ? & _ & _ & H & _). rewrite Hnet in H. discriminate. }
    destruct (existsb (segment_on_physnet physnet) (segments net)) eqn:Hex.
    + exists true. split; [done|]. split; [|done]. intros _. exists q. split; [by left|].
      apply segment_on_physnet_exists in Hex as (seg & ? & ? & ?).
      exists b0, net, seg. rewrite Hbs. done.
    + apply Hskip. intros (? & net' & seg & _ & _ & H & Hin & ? & ?). rewrite Hnet in H.
      injection H as <-.
      assert (existsb (segment_on_physnet physnet) (segments net) = true) as Ht
          by (apply segment_on_physnet_exists; by exists seg).
      congruence.
Qed.

Lemma is_deleted_port_in_use_spec c physnet mac db :
  ∃ b, _is_deleted_port_in_use c physnet mac db = Ok b
       ∧ (b = true ↔ still_bound_port_on_physnet db physnet mac).
Proof.
  unfold _is_deleted_port_in_use.
  destruct (deleted_port_in_use_loop_spec c physnet db (Port_get_objects_by_mac db mac))
    as (b & Hrun & Hb).
  exists b. split; [done|]. rewrite Hb.
  unfold Port_get_objects_by_mac, still_bound_port_on_physnet. split.
  - intros (q & [Hmac Hin]%list_elem_of_filter & ?). by exists q.
  - intros (q & Hin & Hmac & ?). exists q. split; [|done]. by apply list_elem_of_filter.
Qed.

(** C6. [ensure_port] on a known switch, for a port that is not a VM port
    and that the re-read no longer finds: if some other port with the same
    MAC address is still bound, has link information and is on a network with
    a VLAN segment on the same physical network, no device call is made and
    the call returns; otherwise exactly one [delete_port] call is issued, for
    that switch and switch port. *)
Theorem ensure_port_deleted_port_in_use c cfg gw db port sn sp physnet ctx segid delete host :
  lookup_host (inventory cfg) sn = Some host →
  _is_port_normal c port = false →
  Port_get_object db (id (port_data port)) = None →
  let r := ensure_port c cfg gw port db (Some sn) sp physnet ctx segid delete in
  (still_bound_port_on_physnet db physnet (mac_address (port_data port)) →
     r = mkM [] (Ok None))
  ∧ (¬ still_bound_port_on_physnet db physnet (mac_address (port_data port)) →
     calls r = [delete_port sn sp (host_kwargs host)]).
Proof.
  intros Hhost Hn Hgone. unfold ensure_port.
  rewrite (has_host_lookup _ _ _ Hhost), Hn, Hgone.
  cbn [negb fmap option_fmap option_map _get_port_lli].
  rewrite lift_Ok_bind. cbn [lli_truthy].
  destruct (is_deleted_port_in_use_spec c physnet (mac_address (port_data port)) db)
    as (b & -> & Hb).
  rewrite lift_Ok_bind. split.
  - intros Hs. apply Hb in Hs as ->. done.
  - intros Hs. destruct b; [by destruct Hs; apply Hb|].
    unfold _delete_switch_port. rewrite (kwargs_lookup _ _ _ Hhost), lift_Ok_bind.
    rewrite M_bind_eq. unfold wrap_errors, net_runr. cbn. by destruct (gw _).
Qed.

Lemma ex_no_port_in_use :
  ¬ still_bound_port_on_physnet (ex_db []) (Some "physnet1") "52:54:00:00:00:04".
Proof. intros (q & Hin & _). inversion Hin. Qed.

Lemma ensure_port_deleted_port_in_use_witness :
  calls (ensure_port ex_consts ex_config ex_gw (DictPort ex_bm_data) (ex_db [])
                     (Some "sw1") (Some "Eth1/1") (Some "physnet1") None (PyInt 100) false)
  = [delete_port "sw1" (Some "Eth1/1") (host_kwargs ex_sw1)].
Proof.
  exact (proj2 (ensure_port_deleted_port_in_use
                  ex_consts ex_config ex_gw (ex_db []) (DictPort ex_bm_data)
                  "sw1" (Some "Eth1/1") (Some "physnet1") None (PyInt 100) false ex_sw1
                  eq_refl eq_refl eq_refl)
               ex_no_port_in_use).
Defined.

(** ** Deleting a VM port *)

Lemma filter_raising_spec {A} (f : A → Res bool) (P : A → Prop) (l : list A) :
  (∀ x, x ∈ l → ∃ b, f x = Ok b ∧ (b = true ↔ P x)) →
  ∃ kept, filter_raising f l = Ok kept ∧ (kept = [] ↔ ¬ ∃ x, x ∈ l ∧ P x).
Proof.
  induction l as [|x l IH]; intros Hf; cbn [filter_raising].
  - exists []. split; [done|]. split; [|done]. intros _ (x & H & _). inversion H.
  - destruct (Hf x) as (b & -> & Hb); [by left|].
    destruct IH as (kept & -> & Hk); [intros y Hy; apply Hf; by right|].
    cbn. destruct b.
    + exists (x :: kept). split; [done|]. split; [done|]. intros H. destruct H.
      exists x. split; [by left|by apply Hb].
    + exists kept. split; [done|]. rewrite Hk. split.
      * intros Hn (y & [->|Hy]%elem_of_cons & HP); [by apply Hb in HP|].
        apply Hn. by exists y.
      * intros Hn (y & Hy & HP). apply Hn. exists y. split; [by right|done].
Qed.

(** The filter for a deleted port that is not a passthrough port keeps [q]
    when [q] is another port with a binding on the deleted port's host. *)
Lemma active_port_filter_host c cfg port db sp segid q pb :
  binding_items port = Ok pb →
  _is_port_direct port = Ok false →
  ∃ b, active_port_filter c cfg port db sp segid q = Ok b
       ∧ (b = true ↔ id (po_data q) ≠ id (port_data port)
                      ∧ ∃ b0, b0 ∈ bindings q ∧ host b0 = binding_host_id pb).
Proof.
  intros Hpb Hd. unfold active_port_filter.
  induction (bindings q) as [|b0 bs (b & IH & Hb)]; cbn [active_port_filter_loop].
  - exists false. split; [done|]. split; [done|]. intros (_ & b & H & _). inversion H.
  - rewrite Hpb, Hd. cbn [mbind Res_bind].
    destruct (String.eqb (host b0) (binding_host_id pb)) eqn:Hh; cbn [andb].
    + apply String.eqb_eq in Hh.
      destruct (String.eqb (id (po_data q)) (id (port_data port))) eqn:Hid; cbn [negb].
      * apply String.eqb_eq in Hid. exists b. split; [done|]. rewrite Hb. split.
        -- by intros (? & _).
        -- by intros (? & _).
      * apply String.eqb_neq in Hid. exists true. split; [done|]. split; [|done].
        intros _. split; [done|]. exists b0. split; [by left|done].
    + apply String.eqb_neq in Hh. exists b. split; [done|]. rewrite Hb. split.
      * intros (? & b1 & ? & ?). split; [done|]. exists b1. split; [by right|done].
      * intros (? & b1 & [->|?]%elem_of_cons & ?); [done|]. split; [done|]. by exists b1.
Qed.

(** Resolving a [Port] object of the store: the first test of
    [get_switch_meta] reads a key the object does not have. *)
Lemma get_switch_meta_port_object c cfg o network :
  get_switch_meta c cfg (ObjPort o) network = Raise AttributeError.
Proof. reflexivity. Qed.

(** The filter for a deleted passthrough port resolves [q] at its first
    binding, and that raises. *)
Lemma active_port_filter_direct c cfg port db sp segid q :
  _is_port_direct port = Ok true →
  active_port_filter c cfg port db sp segid q
  = match bindings q with
    | [] => Ok false
    | _ :: _ => Raise AttributeError
    end.
Proof.
  intros Hd. unfold active_port_filter.
  destruct (bindings q) as [|b0 bs]; cbn [active_port_filter_loop]; [done|].
  rewrite Hd. destruct (binding_items port) as [e|pb] eqn:Hpb.
  { unfold _is_port_direct in Hd. rewrite Hpb in Hd. discriminate. }
  cbn [mbind Res_bind]. unfold _build_sriov_host_id. rewrite Hpb. cbn [mbind Res_bind].
  by destruct (pci_slot (binding_profile pb)).
Qed.

Lemma host_sharing_port_filter c db port pb :
  binding_items port = Ok pb →
  (∃ q, q ∈ Port_get_objects_on_network db (network_id (port_data port)) (COMPUTE_NOVA c)
        ∧ id (po_data q) ≠ id (port_data port)
        ∧ ∃ b0, b0 ∈ bindings q ∧ host b0 = binding_host_id pb)
  ↔ host_sharing_port c db port.
Proof.
  intros Hpb. unfold host_sharing_port, Port_get_objects_on_network. rewrite Hpb. split.
  - intros (q & [[? ?] ?]%list_elem_of_filter & ? & b & ? & ?). by exists q, b, pb.
  - intros (q & b & pb' & ? & ? & ? & ? & ? & [= <-] & ?). exists q. split.
    + by apply list_elem_of_filter.
    + split; [done|]. by exists b.
Qed.

(** Deleting a VM port that is not a passthrough port, on a known switch. *)
Lemma ensure_port_vm_delete_host c cfg gw db port sn sp physnet ctx segid :
  has_host cfg sn = true →
  _is_port_normal c port = true →
  _is_port_direct port = Ok false →
  let call := delete_trunk_vlan (default "" sn) sp segid (kwargs_of cfg sn) in
  (host_sharing_port c db port →
     ensure_port c cfg gw port db sn sp physnet ctx segid true = mkM [] (Ok None))
  ∧ (¬ host_sharing_port c db port →
     ensure_port c cfg gw port db sn sp physnet ctx segid true
     = mkM [call] (match gw call with
                   | None => Ok None
                   | Some d => Raise (RunnerError d)
                   end)).
Proof.
  intros Hh Hn Hd. cbv zeta. unfold ensure_port. rewrite Hh, Hn. cbn [negb].
  destruct (binding_items port) as [e|pb] eqn:Hpb.
  { unfold _is_port_direct in Hd. rewrite Hpb in Hd. discriminate. }
  destruct (filter_raising_spec
              (active_port_filter c cfg port db sp segid)
              (fun q => id (po_data q) ≠ id (port_data port)
                        ∧ ∃ b0, b0 ∈ bindings q ∧ host b0 = binding_host_id pb)
              (Port_get_objects_on_network db (network_id (port_data port)) (COMPUTE_NOVA c)))
    as (kept & -> & Hkept).
  { intros q _. by apply active_port_filter_host. }
  rewrite lift_Ok_bind. rewrite (host_sharing_port_filter c db port pb Hpb) in Hkept.
  split.
  - intros Hs. destruct kept as [|k kept]; [|done]. by destruct (proj1 Hkept).
  - intros Hs. apply Hkept in Hs as ->.
    unfold kwargs_of. unfold has_host in Hh. unfold kwargs.
    destruct sn as [sn|]; [|done].
    destruct (lookup_host (inventory cfg) sn) as [host|]; [|done].
    rewrite lift_Ok_bind, M_bind_eq. unfold net_runr. cbn. by destruct (gw _).
Qed.

(** C1, as the driver has it. [ensure_port] with [delete] set, for a VM port
    that is not a passthrough port, on a known switch: the VLAN is left on
    the uplink (no [delete_trunk_vlan], normal return) when another compute
    port of the same network, with a different id, has a binding on the
    deleted port's host; and when no such port remains exactly one
    [delete_trunk_vlan] call is issued, for that switch port and segmentation
    id. The test compares hosts: neither the switch port nor the
    segmentation id of the other port enters it. *)
Theorem ensure_port_vm_delete_keeps_shared_vlan
        c cfg gw db port sn sp physnet ctx segid host :
  lookup_host (inventory cfg) sn = Some host →
  _is_port_normal c port = true →
  _is_port_direct port = Ok false →
  let r := ensure_port c cfg gw port db (Some sn) sp physnet ctx segid true in
  (host_sharing_port c db port → r = mkM [] (Ok None))
  ∧ (¬ host_sharing_port c db port →
     calls r = [delete_trunk_vlan sn sp segid (host_kwargs host)]).
Proof.
  intros Hhost Hn Hd. cbv zeta.
  destruct (ensure_port_vm_delete_host c cfg gw db port (Some sn) sp physnet ctx segid
              (has_host_lookup _ _ _ Hhost) Hn Hd) as [Hkeep Hdel].
  split; [exact Hkeep|]. intros Hs. rewrite (Hdel Hs). cbn [calls default from_option].
  unfold kwargs_of. by rewrite (kwargs_lookup _ _ _ Hhost).
Qed.

Lemma ex_no_host_sharing_port : ¬ host_sharing_port ex_consts (ex_db []) ex_vm_port.
Proof. intros (q & b & pb & Hin & _). inversion Hin. Qed.

(** The store port of the small deployment has a binding on [compute-1],
    the host of the deleted VM port. *)
Lemma ex_host_sharing_port : host_sharing_port ex_consts (ex_db [ex_vf_port]) ex_vm_port.
Proof.
  eexists ex_vf_port, _, _. split; [by left|]. repeat split; [done|by left|done].
Qed.

Lemma ensure_port_vm_delete_keeps_shared_vlan_witness :
  calls (ensure_port ex_consts ex_config ex_gw ex_vm_port (ex_db [])
                     (Some "sw1") (Some "eth1") (Some "physnet1") None (PyInt 100) true)
  = [delete_trunk_vlan "sw1" (Some "eth1") (PyInt 100) (host_kwargs ex_sw1)]
  ∧ ensure_port ex_consts ex_config ex_gw ex_vm_port (ex_db [ex_vf_port])
                (Some "sw1") (Some "eth1") (Some "physnet1") None (PyInt 100) true
    = mkM [] (Ok None).
Proof.
  split.
  - exact (proj2 (ensure_port_vm_delete_keeps_shared_vlan
                    ex_consts ex_config ex_gw (ex_db []) ex_vm_port
                    "sw1" (Some "eth1") (Some "physnet1") None (PyInt 100) ex_sw1
                    eq_refl eq_refl eq_refl)
                 ex_no_host_sharing_port).
  - exact (proj1 (ensure_port_vm_delete_keeps_shared_vlan
                    ex_consts ex_config ex_gw (ex_db [ex_vf_port]) ex_vm_port
                    "sw1" (Some "eth1") (Some "physnet1") None (PyInt 100) ex_sw1
                    eq_refl eq_refl eq_refl)
                 ex_host_sharing_port).
Defined.

(** C1 as stated fails twice on the small deployment. A passthrough port of
    the same host is mapped to another switch port ([eth2]), so no other port
    is at the deleted port's location, and yet the VLAN is left on [eth1].
    And a VM port of the second host, behind the same uplink, is at the
    deleted port's location, and yet the VLAN is removed from [eth1]. *)
Lemma ensure_port_vm_delete_location_counterexample :
  (¬ other_port_at_location ex_consts ex_config (ex_db [ex_vf_port]) ex_vm_port
       (Some "eth1") (PyInt 100)
   ∧ ensure_port ex_consts ex_config ex_gw ex_vm_port (ex_db [ex_vf_port])
                 (Some "sw1") (Some "eth1") (Some "physnet1") None (PyInt 100) true
     = mkM [] (Ok None))
  ∧ (other_port_at_location ex_consts ex_config (ex_db [ex_vm_port_2]) ex_vm_port
       (Some "eth1") (PyInt 100)
     ∧ calls (ensure_port ex_consts ex_config ex_gw ex_vm_port (ex_db [ex_vm_port_2])
                          (Some "sw1") (Some "eth1") (Some "physnet1") None (PyInt 100) true)
       = [delete_trunk_vlan "sw1" (Some "eth1") (PyInt 100) (host_kwargs ex_sw1)]).
Proof.
  split; split.
  - intros (q & key & m & Hq & _ & _ & _ & Hkey & Hm & Hsp & _).
    apply list_elem_of_singleton in Hq as ->.
    vm_compute in Hkey. injection Hkey as <-.
    vm_compute in Hm. apply list_elem_of_singleton in Hm as ->.
    discriminate Hsp.
  - vm_compute. reflexivity.
  - exists ex_vm_port_2, "compute-2", (Some "sw1", Some "eth1").
    split; [by left|]. repeat split; try done.
    vm_compute. by left.
  - vm_compute. reflexivity.
Qed.

(** * Further properties of the driver *)

(** ** [ensure_port] *)

Lemma set_port_state_calls_target c cfg gw port db sn sp call :
  call ∈ calls (_set_port_state c cfg gw port db sn sp) →
  sn = Some (call_switch call) ∧ call_port call = Some sp.
Proof.
  unfold _set_port_state. destruct port as [port|]; [|by intros ?%elem_of_nil].
  destruct (negb (truthy_str sn) || negb (truthy_str sp)); [by intros ?%elem_of_nil|].
  destruct sn as [sn|]; [|by intros ?%elem_of_nil].
  destruct (negb (has_host cfg (Some sn))); [by intros ?%elem_of_nil|].
  destruct (Network_get_object db (network_id (port_data port))) as [network|].
  2:{ destruct (port_attr_id port); by intros ?%elem_of_nil. }
  destruct (primary_segmentation_id network) as [e|v]; [by intros ?%elem_of_nil|].
  rewrite !lift_Ok_bind.
  destruct (kwargs cfg (Some sn)) as [e|kw]; [by intros ?%elem_of_nil|].
  unfold wrap_errors. rewrite !lift_Ok_bind.
  destruct (Trunk_get_object db (id (port_data port))) as [trunk|];
    [|destruct (_is_port_normal c port)];
    rewrite !M_bind_eq; unfold net_runr; cbn; destruct (gw _); cbn;
    by intros ->%list_elem_of_singleton.
Qed.

(** What a successful [_set_port_state] has done: one call, which the runner
    accepted. *)
Lemma set_port_state_ok c cfg gw port db sn sp b :
  outcome (_set_port_state c cfg gw port db sn sp) = Ok b →
  b = true ∧ ∃ call, calls (_set_port_state c cfg gw port db sn sp) = [call]
                     ∧ gw call = None.
Proof.
  unfold _set_port_state. destruct port as [port|]; [|done].
  destruct (negb (truthy_str sn) || negb (truthy_str sp)); [done|].
  destruct (negb (has_host cfg sn)); [done|].
  destruct (Network_get_object db (network_id (port_data port))) as [network|].
  2:{ by destruct (port_attr_id port). }
  destruct (primary_segmentation_id network) as [e|v]; [done|].
  rewrite !lift_Ok_bind.
  destruct (kwargs cfg sn) as [e|kw]; [done|].
  unfold wrap_errors. rewrite !lift_Ok_bind.
  destruct (Trunk_get_object db (id (port_data port))) as [trunk|];
    [|destruct (_is_port_normal c port)];
    rewrite !M_bind_eq; unfold net_runr; cbn; destruct (gw _) eqn:Hgw; cbn;
    try done; intros [= <-]; (split; [done|]); eexists; by split.
Qed.

(** X1. Whatever the port, the store and the runner, [ensure_port] issues at
    most one call, and a call it issues is a switch-port operation on the
    switch and the switch port it was given: it never touches another port
    or the VLAN table. *)
Theorem ensure_port_touches_only_its_port
        c cfg gw port db sn sp physnet ctx segid delete :
  let r := ensure_port c cfg gw port db sn sp physnet ctx segid delete in
  (List.length (calls r) ≤ 1)%nat
  ∧ ∀ call, call ∈ calls r → sn = Some (call_switch call) ∧ call_port call = Some sp.
Proof.
  cbv zeta. unfold ensure_port.
  destruct sn as [sn|]; [|split; [simpl; lia|by intros ? ?%elem_of_nil]].
  destruct (negb (has_host cfg (Some sn))); [split; [simpl; lia|by intros ? ?%elem_of_nil]|].
  destruct (_is_port_normal c port).
  - destruct delete.
    + destruct (filter_raising _ _) as [e|kept];
        [split; [simpl; lia|by intros ? ?%elem_of_nil]|].
      rewrite lift_Ok_bind. destruct kept as [|k kept];
        [|split; [simpl; lia|by intros ? ?%elem_of_nil]].
      destruct (kwargs cfg (Some sn)) as [e|kw];
        [split; [simpl; lia|by intros ? ?%elem_of_nil]|].
      rewrite lift_Ok_bind, M_bind_eq. unfold net_runr. cbn.
      destruct (gw _); cbn; (split; [lia|]); by intros call ->%list_elem_of_singleton.
    + rewrite M_bind_eq.
      pose proof (set_port_state_calls_length c cfg gw (Some port) db (Some sn) sp) as Hlen.
      pose proof (set_port_state_calls_target c cfg gw (Some port) db (Some sn) sp) as Htgt.
      destruct (outcome _); cbn; rewrite ?app_nil_r; split; auto.
  - destruct (_get_port_lli c (ObjPort <$> Port_get_object db (id (port_data port))))
      as [e|lli]; [split; [simpl; lia|by intros ? ?%elem_of_nil]|].
    rewrite lift_Ok_bind. destruct (lli_truthy lli).
    + rewrite M_bind_eq.
      pose proof (set_port_state_calls_length c cfg gw
                    (ObjPort <$> Port_get_object db (id (port_data port))) db (Some sn) sp)
        as Hlen.
      pose proof (set_port_state_calls_target c cfg gw
                    (ObjPort <$> Port_get_object db (id (port_data port))) db (Some sn) sp)
        as Htgt.
      destruct (outcome _) as [e|[]]; cbn; [split; auto| |rewrite app_nil_r; split; auto].
      destruct ctx as [[|seg segs]|]; cbn; rewrite app_nil_r; split; auto.
    + destruct (_is_deleted_port_in_use c physnet (mac_address (port_data port)) db)
        as [e|in_use]; [split; [simpl; lia|by intros ? ?%elem_of_nil]|].
      rewrite lift_Ok_bind. destruct in_use; [split; [simpl; lia|by intros ? ?%elem_of_nil]|].
      unfold _delete_switch_port.
      destruct (kwargs cfg (Some sn)) as [e|kw];
        [split; [simpl; lia|by intros ? ?%elem_of_nil]|].
      rewrite lift_Ok_bind, M_bind_eq. unfold wrap_errors, net_runr. cbn.
      destruct (gw _); cbn; (split; [lia|]); by intros call ->%list_elem_of_singleton.
Qed.

(** X2. [ensure_port] commits a binding only after a device call that the
    runner accepted: when it returns a binding, the port is not a VM port, the
    re-read found it, exactly one call was issued and it succeeded, and the
    binding is the first pending segment of the context with VIF type
    [other]. *)
Theorem ensure_port_binds_after_successful_call
        c cfg gw port db sn sp physnet ctx segid delete segment vif_type :
  outcome (ensure_port c cfg gw port db sn sp physnet ctx segid delete)
  = Ok (Some (segment, vif_type)) →
  vif_type = portbindings.VIF_TYPE_OTHER
  ∧ (∃ segments, ctx = Some (segment :: segments))
  ∧ _is_port_normal c port = false
  ∧ is_Some (Port_get_object db (id (port_data port)))
  ∧ ∃ call, calls (ensure_port c cfg gw port db sn sp physnet ctx segid delete) = [call]
            ∧ gw call = None.
Proof.
  unfold ensure_port.
  destruct (negb (has_host cfg sn)); [done|].
  destruct (_is_port_normal c port).
  - destruct delete.
    + destruct (filter_raising _ _) as [e|kept]; [done|].
      rewrite lift_Ok_bind. destruct kept as [|k kept]; [|done].
      destruct (kwargs cfg sn) as [e|kw]; [done|].
      rewrite lift_Ok_bind, M_bind_eq. unfold net_runr. cbn. by destruct (gw _).
    + rewrite M_bind_eq. by destruct (outcome (_set_port_state _ _ _ _ _ _ _)).
  - destruct (Port_get_object db (id (port_data port))) as [updated|] eqn:Hup.
    2:{ cbn [fmap option_fmap option_map _get_port_lli]. rewrite lift_Ok_bind.
        cbn [lli_truthy].
        destruct (_is_deleted_port_in_use _ _ _ _) as [e|in_use]; [done|].
        rewrite lift_Ok_bind. destruct in_use; [done|].
        rewrite M_bind_eq. by destruct (outcome (_delete_switch_port _ _ _ _)). }
    cbn [fmap option_fmap option_map].
    destruct (_get_port_lli c (Some (ObjPort updated))) as [e|lli]; [done|].
    rewrite lift_Ok_bind. destruct (lli_truthy lli).
    + rewrite M_bind_eq.
      destruct (outcome (_set_port_state c cfg gw (Some (ObjPort updated)) db sn sp))
        as [e|b] eqn:Hout; [done|].
      destruct (set_port_state_ok _ _ _ _ _ _ _ _ Hout) as (-> & call & Hcalls & Hgw).
      rewrite Hcalls.
      destruct ctx as [[|seg segs]|]; cbn; try done.
      intros [= <- <-]. split; [done|]. split; [by eexists|]. split; [done|].
      split; [done|]. by exists call.
    + destruct (_is_deleted_port_in_use _ _ _ _) as [e|in_use]; [done|].
      rewrite lift_Ok_bind. destruct in_use; [done|].
      rewrite M_bind_eq. by destruct (outcome (_delete_switch_port _ _ _ _)).
Qed.

Lemma ensure_port_binds_after_successful_call_witness :
  outcome (ensure_port ex_consts ex_config ex_gw (DictPort ex_bm_data) (ex_db [ex_bm_port])
                       (Some "sw1") (Some "Eth1/1") (Some "physnet1")
                       (Some ["segment-1"]) (PyInt 100) false)
  = Ok (Some ("segment-1", "other"))
  ∧ ∃ call, calls (ensure_port ex_consts ex_config ex_gw (DictPort ex_bm_data)
                               (ex_db [ex_bm_port])
                               (Some "sw1") (Some "Eth1/1") (Some "physnet1")
                               (Some ["segment-1"]) (PyInt 100) false) = [call]
            ∧ ex_gw call = None.
Proof.
  split; [reflexivity|].
  exact (proj2 (proj2 (proj2 (proj2
           (ensure_port_binds_after_successful_call
              ex_consts ex_config ex_gw (DictPort ex_bm_data) (ex_db [ex_bm_port])
              (Some "sw1") (Some "Eth1/1") (Some "physnet1")
              (Some ["segment-1"]) (PyInt 100) false "segment-1" "other" eq_refl))))).
Defined.

(** X3. For a port that is not a VM port, [ensure_port] takes nothing from
    the caller's snapshot but the port's id and MAC address: two snapshots
    with the same id and MAC address give the same calls and the same
    result, whatever their other fields, the segmentation id passed and the
    [delete] flag. *)
Theorem ensure_port_rereads_bare_metal
        c cfg gw port port' db sn sp physnet ctx segid segid' delete delete' :
  _is_port_normal c port = false →
  _is_port_normal c port' = false →
  id (port_data port) = id (port_data port') →
  mac_address (port_data port) = mac_address (port_data port') →
  ensure_port c cfg gw port db sn sp physnet ctx segid delete
  = ensure_port c cfg gw port' db sn sp physnet ctx segid' delete'.
Proof.
  intros Hn Hn' Hid Hmac. unfold ensure_port. by rewrite Hn, Hn', Hid, Hmac.
Qed.

Lemma ensure_port_rereads_bare_metal_witness :
  ensure_port ex_consts ex_config ex_gw (DictPort ex_bm_data) (ex_db [ex_bm_port])
              (Some "sw1") (Some "Eth1/1") (Some "physnet1") None (PyInt 100) false
  = ensure_port ex_consts ex_config ex_gw (ObjPort ex_bm_port) (ex_db [ex_bm_port])
                (Some "sw1") (Some "Eth1/1") (Some "physnet1") None (PyInt 4094) true.
Proof.
  exact (ensure_port_rereads_bare_metal
           ex_consts ex_config ex_gw (DictPort ex_bm_data) (ObjPort ex_bm_port)
           (ex_db [ex_bm_port]) (Some "sw1") (Some "Eth1/1") (Some "physnet1") None
           (PyInt 100) (PyInt 4094) false true eq_refl eq_refl eq_refl eq_refl).
Defined.

(** X4. A port object without bindings stops [ensure_port]: for a port that
    is not a VM port, on a known switch, if the re-read finds the port and it
    has no binding, the call ends with [IndexError] and no device call is
    made. *)
Theorem ensure_port_unbound_object_raises
        c cfg gw port db sn sp physnet ctx segid delete updated :
  has_host cfg sn = true →
  _is_port_normal c port = false →
  Port_get_object db (id (port_data port)) = Some updated →
  bindings updated = [] →
  ensure_port c cfg gw port db sn sp physnet ctx segid delete = mkM [] (Raise IndexError).
Proof.
  intros Hh Hn Hup Hb. unfold ensure_port. rewrite Hh, Hn, Hup.
  cbn [negb fmap option_fmap option_map _get_port_lli]. by rewrite Hb.
Qed.

Lemma ensure_port_unbound_object_raises_witness :
  ensure_port ex_consts ex_config ex_gw (DictPort ex_bm_data)
              (ex_db [ {| po_data := pd_data ex_bm_data; bindings := [] |} ])
              (Some "sw1") (Some "Eth1/1") (Some "physnet1") None (PyInt 100) true
  = mkM [] (Raise IndexError).
Proof.
  exact (ensure_port_unbound_object_raises
           ex_consts ex_config ex_gw (DictPort ex_bm_data)
           (ex_db [ {| po_data := pd_data ex_bm_data; bindings := [] |} ])
           (Some "sw1") (Some "Eth1/1") (Some "physnet1") None (PyInt 100) true
           {| po_data := pd_data ex_bm_data; bindings := [] |}
           eq_refl eq_refl eq_refl eq_refl).
Defined.

Lemma filter_raising_raises {A} (f : A → Res bool) (e : exn) (l : list A) :
  (∀ x, x ∈ l → (∃ b, f x = Ok b) ∨ f x = Raise e) →
  (∃ x, x ∈ l ∧ f x = Raise e) →
  filter_raising f l = Raise e.
Proof.
  induction l as [|x l IH]; intros Hall (y & Hy & Hraise); [by apply elem_of_nil in Hy|].
  cbn [filter_raising].
  destruct (Hall x) as [[b Hb]|Hx]; [by left| |by rewrite Hx].
  rewrite Hb. cbn [mbind Res_bind].
  apply elem_of_cons in Hy as [->|Hy]; [congruence|].
  rewrite IH; [done| |by exists y]. intros z Hz. apply Hall. by right.
Qed.

(** X5. Deleting a passthrough VM port. The filter resolves every compute
    port of the network that has a binding by calling [get_switch_meta] on
    the [Port] object of the store, and that reads a key the object does not
    have. So, on a known switch: as soon as some compute port of the network
    has a binding, [ensure_port] ends with [AttributeError] and the VLAN is
    not removed (no device call); only when none has a binding is the VLAN
    removed, with one [delete_trunk_vlan]. *)
Theorem ensure_port_direct_delete_raises c cfg gw port db sn sp physnet ctx segid :
  has_host cfg sn = true →
  _is_port_normal c port = true →
  _is_port_direct port = Ok true →
  let r := ensure_port c cfg gw port db sn sp physnet ctx segid true in
  let candidates :=
    Port_get_objects_on_network db (network_id (port_data port)) (COMPUTE_NOVA c) in
  ((∃ q, q ∈ candidates ∧ bindings q ≠ []) → r = mkM [] (Raise AttributeError))
  ∧ ((∀ q, q ∈ candidates → bindings q = []) →
     calls r = [delete_trunk_vlan (default "" sn) sp segid (kwargs_of cfg sn)]).
Proof.
  intros Hh Hn Hd. cbv zeta. unfold ensure_port. rewrite Hh, Hn. cbn [negb]. split.
  - intros (q & Hq & Hb).
    rewrite (filter_raising_raises _ AttributeError); [done| |].
    + intros q' _. rewrite (active_port_filter_direct _ _ _ _ _ _ _ Hd).
      destruct (bindings q'); [left; by eexists|by right].
    + exists q. split; [done|]. rewrite (active_port_filter_direct _ _ _ _ _ _ _ Hd).
      by destruct (bindings q).
  - intros Hnone.
    destruct (filter_raising_spec
                (active_port_filter c cfg port db sp segid) (fun _ => False)
                (Port_get_objects_on_network db (network_id (port_data port))
                                             (COMPUTE_NOVA c)))
      as (kept & -> & Hkept).
    { intros q Hq. exists false. rewrite (active_port_filter_direct _ _ _ _ _ _ _ Hd).
      rewrite (Hnone q Hq). by split. }
    rewrite lift_Ok_bind.
    assert (kept = []) as -> by (apply Hkept; by intros (? & _ & ?)).
    unfold kwargs_of. unfold has_host in Hh. unfold kwargs.
    destruct sn as [sn|]; [|done].
    destruct (lookup_host (inventory cfg) sn) as [host|]; [|done].
    rewrite lift_Ok_bind, M_bind_eq. unfold net_runr. cbn. by destruct (gw _).
Qed.

Lemma ensure_port_direct_delete_raises_witness :
  ensure_port ex_consts ex_config ex_gw (DictPort (ex_vf_data "port-6" "1"))
              (ex_db [ex_vf_port])
              (Some "sw1") (Some "eth2") (Some "physnet1") None (PyInt 100) true
  = mkM [] (Raise AttributeError)
  ∧ calls (ensure_port ex_consts ex_config ex_gw (DictPort (ex_vf_data "port-6" "1"))
                       (ex_db [])
                       (Some "sw1") (Some "eth2") (Some "physnet1") None (PyInt 100) true)
    = [delete_trunk_vlan "sw1" (Some "eth2") (PyInt 100) (host_kwargs ex_sw1)].
Proof.
  split.
  - apply (proj1 (ensure_port_direct_delete_raises
                    ex_consts ex_config ex_gw (DictPort (ex_vf_data "port-6" "1"))
                    (ex_db [ex_vf_port])
                    (Some "sw1") (Some "eth2") (Some "physnet1") None (PyInt 100)
                    eq_refl eq_refl eq_refl)).
    exists ex_vf_port. split; [by left|discriminate].
  - apply (proj2 (ensure_port_direct_delete_raises
                    ex_consts ex_config ex_gw (DictPort (ex_vf_data "port-6" "1"))
                    (ex_db [])
                    (Some "sw1") (Some "eth2") (Some "physnet1") None (PyInt 100)
                    eq_refl eq_refl eq_refl)).
    intros q Hq. inversion Hq.
Defined.

(** ** Network life cycle, continued *)

(** X8. A network that is not a VLAN network, or has no segmentation id
    ([None], [0]), is none of the driver's business: neither handler calls
    the runner on any switch, and both return normally. *)
Theorem network_postcommit_ignores_non_vlan cfg gw db_at network vlan :
  provider_segmentation_id network = Some vlan →
  provider_network_type network ≠ PyStr "vlan" ∨ truthy vlan = false →
  create_network_postcommit cfg gw db_at network = mkM [] (Ok tt)
  ∧ delete_network_postcommit cfg gw db_at network = mkM [] (Ok tt).
Proof.
  intros Hv Hnon.
  assert (Hcond : is_vlan (provider_network_type network) && truthy vlan = false).
  { destruct Hnon as [Ht| ->]; [|apply andb_false_r].
    unfold is_vlan. by rewrite bool_decide_eq_false_2. }
  unfold create_network_postcommit, delete_network_postcommit. split.
  - induction (inventory cfg) as [|[host_name host] rest IH]; cbn [create_network_loop];
      [done|].
    destruct (host_manages_vlans host); [|done].
    unfold network_item_segmentation_id. by rewrite Hv, lift_Ok_bind, Hcond.
  - induction (inventory cfg) as [|[host_name host] rest IH]; cbn [delete_network_loop];
      [done|].
    unfold network_item_segmentation_id. by rewrite Hv, lift_Ok_bind, Hcond.
Qed.

Lemma ex_flat_not_vlan : provider_network_type ex_flat_network ≠ PyStr "vlan".
Proof. discriminate. Qed.

Lemma network_postcommit_ignores_non_vlan_witness :
  create_network_postcommit ex_config ex_gw (fun _ => ex_db []) ex_flat_network
  = mkM [] (Ok tt)
  ∧ delete_network_postcommit ex_config ex_gw (fun _ => ex_db []) ex_flat_network
    = mkM [] (Ok tt).
Proof.
  exact (network_postcommit_ignores_non_vlan
           ex_config ex_gw (fun _ => ex_db []) ex_flat_network PyNone eq_refl
           (or_introl ex_flat_not_vlan)).
Defined.

Lemma create_loop_app gw db_at network pre post :
  create_network_loop gw db_at network (pre ++ post)
  = create_network_loop gw db_at network pre
  ∨ (outcome (create_network_loop gw db_at network pre) = Ok tt
     ∧ calls (create_network_loop gw db_at network (pre ++ post))
       = calls (create_network_loop gw db_at network pre)
         ++ calls (create_network_loop gw db_at network post)
     ∧ outcome (create_network_loop gw db_at network (pre ++ post))
       = outcome (create_network_loop gw db_at network post)).
Proof.
  induction pre as [|[host_name host] pre IH]; cbn [app create_network_loop].
  - right. by split.
  - destruct (host_manages_vlans host); [|exact IH].
    destruct (network_item_segmentation_id network) as [e|vlan]; [by left|].
    rewrite !lift_Ok_bind.
    destruct (is_vlan (provider_network_type network) && truthy vlan); [|exact IH].
    destruct (Network_get_object (db_at host_name) (net_id network)) as [net|]; [|by left].
    destruct (negb (bool_decide (vlan ∈ segment_ids net))); [by left|].
    rewrite !M_bind_eq, wrap_net_runr. cbn [outcome calls].
    destruct (gw _); [by left|].
    destruct IH as [-> | (Hok & Hc & Ho)]; [by left|]. right.
    cbn [outcome calls]. rewrite Hc, Ho. by split.
Qed.

Lemma delete_loop_app gw db_at network pre post :
  delete_network_loop gw db_at network (pre ++ post)
  = delete_network_loop gw db_at network pre
  ∨ (outcome (delete_network_loop gw db_at network pre) = Ok tt
     ∧ calls (delete_network_loop gw db_at network (pre ++ post))
       = calls (delete_network_loop gw db_at network pre)
         ++ calls (delete_network_loop gw db_at network post)
     ∧ outcome (delete_network_loop gw db_at network (pre ++ post))
       = outcome (delete_network_loop gw db_at network post)).
Proof.
  induction pre as [|[host_name host] pre IH]; cbn [app delete_network_loop].
  - right. by split.
  - destruct (network_item_segmentation_id network) as [e|vlan]; [by left|].
    rewrite !lift_Ok_bind.
    destruct (is_vlan (provider_network_type network) && truthy vlan); [|exact IH].
    destruct (host_manages_vlans host); [|exact IH].
    destruct (existsb _ _); [by left|].
    rewrite !M_bind_eq, wrap_net_runr. cbn [outcome calls].
    destruct (gw _); [by left|].
    destruct IH as [-> | (Hok & Hc & Ho)]; [by left|]. right.
    cbn [outcome calls]. rewrite Hc, Ho. by split.
Qed.

(** X9. A stale read ends the walk of [create_network_postcommit]: when the
    re-read under the lock of a VLAN-managed switch finds the network gone or
    without the segmentation id, the handler returns there, and the switches
    that come later in the inventory get no call, whatever their own re-read
    would find. The handler does what it does on the inventory cut before
    that switch. *)
Theorem create_network_stale_read_ends_walk
        cfg cfg' gw db_at network vlan pre host_name host post :
  inventory cfg = pre ++ (host_name, host) :: post →
  inventory cfg' = pre →
  provider_segmentation_id network = Some vlan →
  provider_network_type network = PyStr "vlan" →
  truthy vlan = true →
  host_manages_vlans host = true →
  network_is_stale (db_at host_name) network vlan →
  calls (create_network_postcommit cfg gw db_at network)
  = calls (create_network_postcommit cfg' gw db_at network)
  ∧ outcome (create_network_postcommit cfg gw db_at network)
    = outcome (create_network_postcommit cfg' gw db_at network).
Proof.
  intros Hinv Hinv' Hv Ht Htr Hm Hstale. unfold create_network_postcommit.
  rewrite Hinv, Hinv'.
  assert (Hhere : create_network_loop gw db_at network ((host_name, host) :: post)
                  = mkM [] (Ok tt)).
  { cbn [create_network_loop]. rewrite Hm. unfold network_item_segmentation_id.
    rewrite Hv, lift_Ok_bind. unfold is_vlan.
    rewrite Ht, Htr, bool_decide_eq_true_2 by done. cbn [andb].
    unfold network_is_stale in Hstale.
    destruct (Network_get_object (db_at host_name) (net_id network)) as [net|]; [|done].
    by rewrite bool_decide_eq_false_2. }
  destruct (create_loop_app gw db_at network pre ((host_name, host) :: post))
    as [-> | (Hok & -> & ->)]; [done|].
  rewrite Hhere, Hok. cbn. by rewrite app_nil_r.
Qed.

(** The first switch reads a stale network, so the second, although it would
    read a fresh one, is not called. *)
Lemma create_network_stale_read_ends_walk_witness :
  let cfg := {| inventory := [("sw0", ex_sw1); ("sw1", ex_sw1)];
                mac_map := ∅; port_mappings := ∅ |} in
  let cfg' := {| inventory := []; mac_map := ∅; port_mappings := ∅ |} in
  let db_at := fun h : string => if String.eqb h "sw0" then ex_db_empty else ex_db [] in
  calls (create_network_postcommit cfg ex_gw db_at ex_network)
  = calls (create_network_postcommit cfg' ex_gw db_at ex_network)
  ∧ outcome (create_network_postcommit cfg ex_gw db_at ex_network)
    = outcome (create_network_postcommit cfg' ex_gw db_at ex_network).
Proof.
  exact (create_network_stale_read_ends_walk
           {| inventory := [("sw0", ex_sw1); ("sw1", ex_sw1)];
              mac_map := ∅; port_mappings := ∅ |}
           {| inventory := []; mac_map := ∅; port_mappings := ∅ |}
           ex_gw (fun h : string => if String.eqb h "sw0" then ex_db_empty else ex_db [])
           ex_network (PyInt 100) [] "sw0" ex_sw1 [("sw1", ex_sw1)]
           eq_refl eq_refl eq_refl eq_refl eq_refl eq_refl I).
Defined.

(** X10. The same for [delete_network_postcommit]: when, under the lock of a
    VLAN-managed switch, a segment with the VLAN id is found on the physical
    network, the handler returns there and the VLAN also stays on every
    switch that comes later in the inventory. *)
Theorem delete_network_recreated_ends_walk
        cfg cfg' gw db_at network vlan pre host_name host post :
  inventory cfg = pre ++ (host_name, host) :: post →
  inventory cfg' = pre →
  provider_segmentation_id network = Some vlan →
  provider_network_type network = PyStr "vlan" →
  truthy vlan = true →
  host_manages_vlans host = true →
  vlan_still_in_store (db_at host_name) vlan (provider_physical_network network) →
  calls (delete_network_postcommit cfg gw db_at network)
  = calls (delete_network_postcommit cfg' gw db_at network)
  ∧ outcome (delete_network_postcommit cfg gw db_at network)
    = outcome (delete_network_postcommit cfg' gw db_at network).
Proof.
  intros Hinv Hinv' Hv Ht Htr Hm Hstill. unfold delete_network_postcommit.
  rewrite Hinv, Hinv'.
  assert (Hhere : delete_network_loop gw db_at network ((host_name, host) :: post)
                  = mkM [] (Ok tt)).
  { cbn [delete_network_loop]. unfold network_item_segmentation_id.
    rewrite Hv, lift_Ok_bind. unfold is_vlan.
    rewrite Ht, Htr, bool_decide_eq_true_2 by done. cbn [andb]. rewrite Hm.
    apply delete_check_true in Hstill. by rewrite Hstill. }
  destruct (delete_loop_app gw db_at network pre ((host_name, host) :: post))
    as [-> | (Hok & -> & ->)]; [done|].
  rewrite Hhere, Hok. cbn. by rewrite app_nil_r.
Qed.

Lemma delete_network_recreated_ends_walk_witness :
  let cfg := {| inventory := [("sw0", ex_sw1); ("sw1", ex_sw1)];
                mac_map := ∅; port_mappings := ∅ |} in
  let cfg' := {| inventory := []; mac_map := ∅; port_mappings := ∅ |} in
  let db_at := fun h : string => if String.eqb h "sw0" then ex_db [] else ex_db_empty in
  calls (delete_network_postcommit cfg ex_gw db_at ex_network)
  = calls (delete_network_postcommit cfg' ex_gw db_at ex_network)
  ∧ outcome (delete_network_postcommit cfg ex_gw db_at ex_network)
    = outcome (delete_network_postcommit cfg' ex_gw db_at ex_network).
Proof.
  exact (delete_network_recreated_ends_walk
           {| inventory := [("sw0", ex_sw1); ("sw1", ex_sw1)];
              mac_map := ∅; port_mappings := ∅ |}
           {| inventory := []; mac_map := ∅; port_mappings := ∅ |}
           ex_gw (fun h : string => if String.eqb h "sw0" then ex_db [] else ex_db_empty)
           ex_network (PyInt 100) [] "sw0" ex_sw1 [("sw1", ex_sw1)]
           eq_refl eq_refl eq_refl eq_refl eq_refl eq_refl ex_vlan_still_in_store).
Defined.

(** ** Topology resolution, continued *)

Lemma upper_ascii_idem a : Str.upper_ascii (Str.upper_ascii a) = Str.upper_ascii a.
Proof. by destruct a as [[] [] [] [] [] [] [] []]. Qed.

Lemma upper_idem s : Str.upper (Str.upper s) = Str.upper s.
Proof. induction s as [|a s IH]; [done|]. cbn. by rewrite upper_ascii_idem, IH. Qed.

(** X6. The switch MAC of the link information is upper-cased before it is
    looked up, and the keys of [mac_map] are taken as they are: an entry
    whose key is not in upper case is never found. Removing it from the
    table changes no resolution. *)
Theorem mac_map_key_must_be_upper_case c cfg port network key :
  Str.upper key ≠ key →
  _switch_meta_from_link_info
    c {| inventory := inventory cfg; mac_map := delete key (mac_map cfg);
         port_mappings := port_mappings cfg |} port network
  = _switch_meta_from_link_info c cfg port network.
Proof.
  intros Hkey. unfold _switch_meta_from_link_info.
  destruct (_get_port_lli c (Some port)) as [e|[[|lli0 rest]|]]; try done.
  cbn [mbind Res_bind mac_map]. rewrite lookup_delete_ne; [done|].
  intros ->. apply Hkey, upper_idem.
Qed.

Lemma mac_map_key_must_be_upper_case_witness :
  let cfg := {| inventory := []; mac_map := {[ "aa:bb:cc:dd:ee:ff" := "sw1" ]};
                port_mappings := ∅ |} in
  _switch_meta_from_link_info
    ex_consts {| inventory := inventory cfg;
                 mac_map := delete "aa:bb:cc:dd:ee:ff" (mac_map cfg);
                 port_mappings := port_mappings cfg |}
    (DictPort ex_bm_data) (Some ex_network)
  = _switch_meta_from_link_info ex_consts cfg (DictPort ex_bm_data) (Some ex_network).
Proof.
  apply (mac_map_key_must_be_upper_case
           ex_consts
           {| inventory := []; mac_map := {[ "aa:bb:cc:dd:ee:ff" := "sw1" ]};
              port_mappings := ∅ |}
           (DictPort ex_bm_data) (Some ex_network) "aa:bb:cc:dd:ee:ff").
  discriminate.
Defined.

Lemma replace_from_chars a old k s :
  string_has a (Str.replace_from old "" k s) = true → string_has a s = true.
Proof.
  revert k. induction s as [|b s IH]; intros k; cbn [Str.replace_from]; [done|].
  destruct k as [|k].
  - destruct (String.prefix old (String b s)).
    + cbn [append string_has]. intros H%IH. rewrite H. apply orb_true_r.
    + cbn [string_has]. intros [->|H%IH]%orb_true_iff; [done|].
      rewrite H. apply orb_true_r.
  - cbn [string_has]. intros H%IH. rewrite H. apply orb_true_r.
Qed.

Lemma replace_from_removes a k s :
  string_has a (Str.replace_from (String a EmptyString) "" k s) = false.
Proof.
  revert k. induction s as [|b s IH]; intros k; cbn [Str.replace_from]; [done|].
  destruct k as [|k]; [|apply IH].
  cbn [String.prefix]. destruct (ascii_dec a b) as [->|Hne].
  - destruct s; cbn [append String.length Nat.sub]; apply IH.
  - cbn [string_has]. rewrite IH, orb_false_r. by apply Ascii.eqb_neq.
Qed.

Lemma split_first_removes a s : string_has a (Str.split_first a s) = false.
Proof.
  induction s as [|b s IH]; cbn [Str.split_first]; [done|].
  destruct (Ascii.eqb b a) eqn:Hb; [done|].
  cbn [string_has]. rewrite IH, orb_false_r, Ascii.eqb_sym. exact Hb.
Qed.

(** X7. The device-address part of a key holds no dot and no colon, whatever
    the [pci_slot] of the profile is. *)
Theorem normalize_pci_slot_no_separators pci :
  string_has "." (normalize_pci_slot pci) = false
  ∧ string_has ":" (normalize_pci_slot pci) = false.
Proof.
  unfold normalize_pci_slot, Str.replace. split; [|apply replace_from_removes].
  apply not_true_is_false. intros H.
  apply replace_from_chars, replace_from_chars in H.
  by rewrite split_first_removes in H.
Qed.

(** ** The trunk driver's entry point *)

(** X11. [ensure_subports] never configures a switch. For a port that is
    gone it does nothing. For a port it finds it resolves the [Port] object of
    the store with [get_switch_meta], which reads a key the object does not
    have: the call ends with [AttributeError] before any switch is locked, and
    no device call is issued, whatever the port, its trunk and the store read
    under the lock. *)
Theorem ensure_subports_never_configures c cfg gw port_id db db_at :
  ensure_subports c cfg gw port_id db db_at
  = match Port_get_object db port_id with
    | None => mkM [] (Ok tt)
    | Some _ => mkM [] (Raise AttributeError)
    end.
Proof.
  unfold ensure_subports. destruct (Port_get_object db port_id) as [port|]; [|done].
  by rewrite get_switch_meta_port_object.
Qed.

(** ** The port hooks *)

Lemma Hook_bind_eq {A B} (m : Hook A) (f : A → Hook B) :
  m ≫= f = match result m with
           | Raise e => mkHook (events m) (Raise e)
           | Ok a => mkHook (events m ++ events (f a)) (result (f a))
           end.
Proof. reflexivity. Qed.

Lemma lift_hook_Ok_bind {A B} (a : A) (f : A → Hook B) : lift_hook (Ok a) ≫= f = f a.
Proof. rewrite Hook_bind_eq. simpl. by destruct (f a). Qed.

(** X12. [delete_port_postcommit] for a bound VM port that is not a
    passthrough port, with every mapped switch in the inventory and a runner
    that does not fail: if another compute port of the network is bound on
    the same host, nothing is called; otherwise the VLAN is removed from
    every switch port the host is mapped to, one [delete_trunk_vlan] per
    mapping, in the order of the table. A host without an entry in the table
    gives no call. The hook signals nothing else. *)
Theorem delete_port_postcommit_vm_port c cfg gw context pb :
  let port := current context in
  let db := _plugin_context context in
  let segid := network_segmentation_id (Some (network_current context)) in
  let mappings := default [] (port_mappings cfg !! binding_host_id pb) in
  binding_items port = Ok pb →
  _is_port_bound c port = Ok true →
  _is_port_baremetal port = Ok false →
  _is_port_normal c port = true →
  _is_port_direct port = Ok false →
  (∀ m, m ∈ mappings → has_host cfg m.1 = true) →
  (∀ call, gw call = None) →
  (host_sharing_port c db port →
     delete_port_postcommit c cfg gw context = mkHook [] (Ok tt))
  ∧ (¬ host_sharing_port c db port →
     delete_port_postcommit c cfg gw context
     = mkHook ((fun m => DeviceEv (delete_trunk_vlan (default "" m.1) m.2 segid
                                                      (kwargs_of cfg m.1))) <$> mappings)
              (Ok tt)).
Proof.
  cbv zeta. intros Hpb Hb Hbm Hn Hd Hhosts Hgw.
  unfold delete_port_postcommit, get_switch_meta, _switch_meta_from_port_host_id.
  rewrite Hb, lift_hook_Ok_bind, Hbm. cbn [mbind Res_bind].
  rewrite Hn, Hpb. cbn [mbind Res_bind]. rewrite Hd. cbn [mbind Res_bind].
  rewrite lift_hook_Ok_bind.
  unfold ensure_mappings, for_mappings.
  induction (default [] (port_mappings cfg !! binding_host_id pb))
    as [|m ms IH]; [by split|].
  cbn [foreach fmap list_fmap].
  destruct (ensure_port_vm_delete_host
              c cfg gw (_plugin_context context) (current context) m.1 m.2
              (provider_physical_network (network_current context))
              (Some (segments_to_bind context))
              (network_segmentation_id (Some (network_current context))))
    as [Hkeep Hdel]; [apply Hhosts; by left|done|done|].
  destruct IH as [IH1 IH2]; [intros m' Hm'; apply Hhosts; by right|].
  split.
  - intros Hs. rewrite (IH1 Hs), Hook_bind_eq, (Hkeep Hs). done.
  - intros Hs. rewrite (IH2 Hs), Hook_bind_eq, (Hdel Hs), Hgw. done.
Qed.

Lemma ex_vm_mappings_known m :
  m ∈ default [] (port_mappings ex_config !! "compute-1") → has_host ex_config m.1 = true.
Proof. vm_compute. by intros ->%list_elem_of_singleton. Qed.

Lemma delete_port_postcommit_vm_port_witness :
  delete_port_postcommit ex_consts ex_config ex_gw (ex_vm_context [])
  = mkHook [DeviceEv (delete_trunk_vlan "sw1" (Some "eth1") (PyInt 100) (host_kwargs ex_sw1))]
           (Ok tt).
Proof.
  exact (proj2 (delete_port_postcommit_vm_port
                  ex_consts ex_config ex_gw (ex_vm_context []) _
                  eq_refl eq_refl eq_refl eq_refl eq_refl
                  ex_vm_mappings_known (fun _ => eq_refl))
               ex_no_host_sharing_port).
Defined.

(** X13. [bind_port] only checks that the VNIC type is supported before it
    resolves the port. A supported port that is neither a bare-metal port
    nor owned by a compute instance resolves to no mappings at all ([None]),
    and [bind_port] ends with [TypeError], having signalled nothing. Such a
    port is never bound for this driver, so [delete_port_postcommit] leaves
    it alone. *)
Theorem bind_port_foreign_port_raises c cfg gw context :
  _is_port_supported c (current context) = Ok true →
  _is_port_baremetal (current context) = Ok false →
  _is_port_normal c (current context) = false →
  bind_port c cfg gw context = mkHook [] (Raise TypeError)
  ∧ _is_port_bound c (current context) = Ok false
  ∧ delete_port_postcommit c cfg gw context = mkHook [] (Ok tt).
Proof.
  intros Hs Hbm Hn.
  assert (Hb : _is_port_bound c (current context) = Ok false).
  { unfold _is_port_bound. rewrite Hs, Hbm, Hn. cbn [mbind Res_bind negb].
    destruct (binding_items (current context)) eqn:Hpb; [|done].
    unfold _is_port_baremetal in Hbm. rewrite Hpb in Hbm. discriminate. }
  split; [|split; [done|]].
  - unfold bind_port, get_switch_meta. rewrite Hs, lift_hook_Ok_bind, Hbm. cbn [negb].
    cbn [mbind Res_bind]. by rewrite Hn.
  - unfold delete_port_postcommit. by rewrite Hb.
Qed.

Lemma bind_port_foreign_port_raises_witness :
  bind_port ex_consts ex_config ex_gw
            {| current := ex_dhcp_port; original := ex_dhcp_port;
               network_current := ex_network; segments_to_bind := ["segment-1"];
               _plugin_context := ex_db [] |}
  = mkHook [] (Raise TypeError).
Proof.
  exact (proj1 (bind_port_foreign_port_raises
                  ex_consts ex_config ex_gw
                  {| current := ex_dhcp_port; original := ex_dhcp_port;
                     network_current := ex_network; segments_to_bind := ["segment-1"];
                     _plugin_context := ex_db [] |}
                  eq_refl eq_refl eq_refl)).
Defined.

(** X14. Binding a bare-metal port. When the port resolves to one switch
    port of a known switch, the re-read finds it bound with link information
    and [_set_port_state] gets to its device call, [bind_port] registers the
    provisioning component, then issues that one call, and commits the
    binding (first pending segment, VIF type [other]) only if the runner
    accepted the call; if the runner refuses it, no binding is committed and
    the hook raises [NetworkingAnsibleMechException]. *)
Theorem bind_port_bare_metal
        c cfg gw context sn sp segid updated b0 bs host network seg0 :
  let port := current context in
  let db := _plugin_context context in
  _is_port_supported c port = Ok true →
  _is_port_baremetal port = Ok true →
  _is_port_normal c port = false →
  _switch_meta_from_link_info c cfg port (Some (network_current context))
  = Ok ([(Some sn, sp)], segid) →
  Port_get_object db (id (port_data port)) = Some updated →
  bindings updated = b0 :: bs →
  lli_truthy (local_link_information (profile b0)) = true →
  reaches_device_call cfg db (ObjPort updated) sn sp host network seg0 →
  let call := port_state_call c db (ObjPort updated) sn sp (segmentation_id seg0)
                              (host_kwargs host) in
  bind_port c cfg gw context
  = mkHook ([AddProvisioningComponent (id (port_data port)); DeviceEv call]
              ++ match gw call, segments_to_bind context with
                 | None, segment :: _ => [SetBinding segment portbindings.VIF_TYPE_OTHER]
                 | _, _ => []
                 end)
           (match gw call with
            | None => Ok tt
            | Some d => Raise (NetworkingAnsibleMechException (RunnerError d))
            end).
Proof.
  cbv zeta. intros Hs Hbm Hn Hmeta Hup Hb Hlli Hreach.
  unfold bind_port, get_switch_meta. rewrite Hs, lift_hook_Ok_bind, Hbm. cbn [negb].
  cbn [mbind Res_bind]. rewrite Hmeta. cbn [mbind Res_bind].
  rewrite lift_hook_Ok_bind. cbn [for_mappings foreach fst snd].
  unfold ensure_port.
  rewrite (has_host_lookup _ _ _ (proj1 (proj2 (proj2 Hreach)))), Hn, Hup.
  cbn [negb fmap option_fmap option_map _get_port_lli]. rewrite Hb, lift_Ok_bind, Hlli.
  rewrite (set_port_state_run c cfg gw _ _ _ _ _ _ _ Hreach).
  rewrite M_bind_eq. cbn [outcome calls].
  destruct (gw _); [done|]. by destruct (segments_to_bind context).
Qed.

Lemma ex_bm_reaches_device_call :
  reaches_device_call ex_config (ex_db [ex_bm_port]) (ObjPort ex_bm_port)
                      "sw1" (Some "Eth1/1") ex_sw1 ex_network ex_segment.
Proof. by repeat split. Qed.

Lemma bind_port_bare_metal_witness :
  bind_port ex_consts ex_config ex_gw ex_bm_context
  = mkHook [AddProvisioningComponent "port-4";
            DeviceEv (conf_access_port "sw1" (Some "Eth1/1") (PyInt 100) (host_kwargs ex_sw1));
            SetBinding "segment-1" "other"]
           (Ok tt).
Proof.
  exact (bind_port_bare_metal
           ex_consts ex_config ex_gw ex_bm_context "sw1" (Some "Eth1/1") (PyInt 100)
           ex_bm_port
           {| host := "node-4"; vnic_type := "baremetal";
              profile := binding_profile (pd_binding ex_bm_data) |} []
           ex_sw1 ex_network ex_segment
           eq_refl eq_refl eq_refl eq_refl eq_refl eq_refl eq_refl
           ex_bm_reaches_device_call).
Defined.

Lemma foreach_no_provisioning_complete (l : list Mapping) (body : Mapping → Hook unit) p :
  (∀ m, ProvisioningComplete p ∉ events (body m)) →
  ProvisioningComplete p ∉ events (foreach l body).
Proof.
  intros Hbody. induction l as [|m l IH]; cbn [foreach]; [by intros ?%elem_of_nil|].
  rewrite Hook_bind_eq. specialize (Hbody m).
  destruct (result (body m)); cbn [events]; [done|].
  intros [?|?]%elem_of_app; done.
Qed.

Lemma run_ensure_port_no_provisioning_complete m p :
  ProvisioningComplete p ∉ events (run_ensure_port m).
Proof.
  unfold run_ensure_port. cbn [events]. intros [Hin|Hin]%elem_of_app.
  - apply list_elem_of_fmap in Hin as (call & Heq & _). discriminate.
  - destruct (outcome m) as [e|[[seg vif]|]]; [by apply elem_of_nil in Hin| |
                                                by apply elem_of_nil in Hin].
    apply list_elem_of_singleton in Hin. discriminate.
Qed.

Lemma ensure_mappings_no_provisioning_complete c cfg gw context port mappings segid delete p :
  ProvisioningComplete p
  ∉ events (ensure_mappings c cfg gw context port mappings segid delete).
Proof.
  unfold ensure_mappings, for_mappings.
  destruct mappings as [l|]; [|by intros ?%elem_of_nil].
  apply foreach_no_provisioning_complete. intros m.
  apply run_ensure_port_no_provisioning_complete.
Qed.

(** X15. [update_port_postcommit] signals that provisioning is complete
    exactly for a port that is bound and is not a VM port, and for such a
    port it does nothing else: no device call is made on the update of a
    bound bare-metal port. *)
Theorem update_port_provisioning_complete c cfg gw context p :
  ProvisioningComplete p ∈ events (update_port_postcommit c cfg gw context)
  ↔ (_is_port_normal c (current context) = false
     ∧ _is_port_bound c (current context) = Ok true
     ∧ p = id (port_data (current context))
     ∧ update_port_postcommit c cfg gw context = mkHook [ProvisioningComplete p] (Ok tt)).
Proof.
  unfold update_port_postcommit. split.
  - destruct (_is_port_normal c (current context)).
    { destruct (get_switch_meta c cfg (current context) (Some (network_current context)))
        as [e|[mappings segid]]; [by intros ?%elem_of_nil|].
      cbn [mbind Res_bind]. rewrite lift_hook_Ok_bind.
      by intros ?%ensure_mappings_no_provisioning_complete. }
    destruct (_is_port_bound c (current context)) as [e|[]];
      [by intros ?%elem_of_nil| |].
    { rewrite lift_hook_Ok_bind. cbn [events]. by intros [= ->]%list_elem_of_singleton. }
    rewrite lift_hook_Ok_bind.
    destruct (_is_port_bound c (original context)) as [e|[]];
      [by intros ?%elem_of_nil| |by intros ?%elem_of_nil].
    rewrite lift_hook_Ok_bind.
    destruct (get_switch_meta c cfg (original context) (Some (network_current context)))
      as [e|[mappings segid]]; [by intros ?%elem_of_nil|].
    cbn [mbind Res_bind]. rewrite lift_hook_Ok_bind.
    by intros ?%ensure_mappings_no_provisioning_complete.
  - intros (-> & -> & -> & _). rewrite lift_hook_Ok_bind. cbn [events]. by left.
Qed.

(** ** [initialize] *)

Lemma host_kwargs_loop_lookup {V} extra prefix (items : list (string * V)) acc k v :
  host_kwargs_loop extra prefix items acc !! k = Some v →
  acc !! k = Some v
  ∨ ∃ key, (key, v) ∈ items ∧ param_selected extra prefix key = true
           ∧ k = param_name prefix key.
Proof.
  revert acc. induction items as [|[key val] items IH]; intros acc; cbn [host_kwargs_loop];
    [by left|].
  destruct (param_selected extra prefix key) eqn:Hsel.
  - intros [Hacc|(key' & Hin & ? & ?)]%IH.
    + destruct (decide (param_name prefix key = k)) as [<-|Hne].
      * rewrite lookup_insert_eq in Hacc. injection Hacc as ->.
        right. exists key. split; [by left|done].
      * rewrite lookup_insert_ne in Hacc by done. by left.
    + right. exists key'. split; [by right|done].
  - intros [Hacc|(key' & Hin & ? & ?)]%IH; [by left|].
    right. exists key'. split; [by right|done].
Qed.

Lemma host_kwargs_loop_last {V} extra prefix (items : list (string * V)) acc k v :
  acc !! k = Some v →
  (∀ key' v', (key', v') ∈ items → param_selected extra prefix key' = true →
              param_name prefix key' ≠ k) →
  host_kwargs_loop extra prefix items acc !! k = Some v.
Proof.
  revert acc. induction items as [|[key val] items IH]; intros acc Hacc Hlater;
    cbn [host_kwargs_loop]; [done|].
  destruct (param_selected extra prefix key) eqn:Hsel.
  - apply IH.
    + rewrite lookup_insert_ne; [done|]. apply (Hlater key val); [by left|done].
    + intros key' v' Hin. apply (Hlater key' v'). by right.
  - apply IH; [done|]. intros key' v' Hin. apply (Hlater key' v'). by right.
Qed.

Lemma initialize_kwargs_lookup {V} extra prefix
      (inv : list (string * list (string * V))) acc h kw :
  initialize_kwargs extra prefix inv acc !! h = Some kw →
  acc !! h = Some kw
  ∨ ∃ items, (h, items) ∈ inv ∧ kw = host_kwargs_loop extra prefix items ∅.
Proof.
  revert acc. induction inv as [|[host_name items] inv IH]; intros acc;
    cbn [initialize_kwargs]; [by left|].
  intros [Hacc|(items' & Hin & ?)]%IH.
  - destruct (decide (host_name = h)) as [<-|Hne].
    + rewrite lookup_insert_eq in Hacc. injection Hacc as <-.
      right. exists items. split; [by left|done].
    + rewrite lookup_insert_ne in Hacc by done. by left.
  - right. exists items'. split; [by right|done].
Qed.

Lemma initialize_kwargs_dom {V} extra prefix
      (inv : list (string * list (string * V))) acc h :
  is_Some (initialize_kwargs extra prefix inv acc !! h)
  ↔ h ∈ inv.*1 ∨ is_Some (acc !! h).
Proof.
  revert acc. induction inv as [|[host_name items] inv IH]; intros acc;
    cbn [initialize_kwargs fmap list_fmap fst].
  - split; [by right|]. by intros [?%elem_of_nil|?].
  - rewrite IH, elem_of_cons. destruct (decide (host_name = h)) as [<-|Hne].
    + rewrite lookup_insert_eq. split; intros _; [left; by left|right; by eexists].
    + rewrite lookup_insert_ne by done. split.
      * intros [?|?]; [left; by right|by right].
      * intros [[?|?]|?]; [done|by left|by right].
Qed.

(** X16. The keyword arguments [initialize] builds. Every host of the
    inventory, and no other name, has an entry in [self.kwargs]. An entry
    holds nothing but keys that are in [EXTRA_PARAMS] or carry the custom
    prefix, passed on with the prefix cut off and with the value of the
    inventory. And a selected key is passed on with its value unless a later
    selected key of the host goes under the same name. *)
Theorem initialize_kwargs_forwards_selected_params
        {V} extra prefix (inv : list (string * list (string * V))) :
  let kwargs := initialize_kwargs extra prefix inv ∅ in
  (∀ h, is_Some (kwargs !! h) ↔ h ∈ inv.*1)
  ∧ (∀ h kw k v,
       kwargs !! h = Some kw → kw !! k = Some v →
       ∃ items key, (h, items) ∈ inv ∧ (key, v) ∈ items
                    ∧ param_selected extra prefix key = true
                    ∧ k = param_name prefix key)
  ∧ (∀ h kw before key v after,
       kwargs !! h = Some kw →
       (∀ items, (h, items) ∈ inv → items = before ++ (key, v) :: after) →
       param_selected extra prefix key = true →
       (∀ key' v', (key', v') ∈ after → param_selected extra prefix key' = true →
                   param_name prefix key' ≠ param_name prefix key) →
       kw !! param_name prefix key = Some v).
Proof.
  cbv zeta. split; [|split].
  - intros h. rewrite initialize_kwargs_dom. split; [|by left].
    intros [?|[? Hl]]; [done|]. by rewrite lookup_empty in Hl.
  - intros h kw k v [Hl|(items & Hin & ->)]%initialize_kwargs_lookup;
      [by rewrite lookup_empty in Hl|].
    intros [Hl|(key & ? & ? & ?)]%host_kwargs_loop_lookup; [by rewrite lookup_empty in Hl|].
    by exists items, key.
  - intros h kw before key v after [Hl|(items & Hin & ->)]%initialize_kwargs_lookup;
      [by rewrite lookup_empty in Hl|].
    intros Hitems Hsel Hafter. rewrite (Hitems items Hin). clear Hitems Hin.
    assert (Hsplit : ∀ acc, host_kwargs_loop extra prefix (before ++ (key, v) :: after) acc
                            !! param_name prefix key = Some v).
    { induction before as [|[k0 v0] before IH]; intros acc; cbn [app host_kwargs_loop].
      - rewrite Hsel. apply host_kwargs_loop_last; [apply lookup_insert_eq|done].
      - destruct (param_selected extra prefix k0); apply IH. }
    apply Hsplit.
Qed.

(** A concrete inventory entry: the custom parameter loses its prefix, the
    flag of the driver itself is not passed on. *)
Example ex_initialize_kwargs :
  initialize_kwargs ["ansible_network_os"; "ansible_host"] "cp_"
                    [("sw1", [("ansible_network_os", "junos"); ("manage_vlans", "False");
                              ("cp_stp_edge", "True")])] ∅
  = {[ "sw1" := {[ "ansible_network_os" := "junos"; "stp_edge" := "True" ]} ]}.
Proof. vm_compute. reflexivity. Qed.

(** ** Updating a VM port *)

Lemma reaches_device_call_of_host cfg db port sn sp network seg0 :
  truthy_str sn = true → truthy_str sp = true → has_host cfg sn = true →
  Network_get_object db (network_id (port_data port)) = Some network →
  head (segments network) = Some seg0 →
  ∃ name host, sn = Some name ∧ kwargs_of cfg sn = host_kwargs host
               ∧ reaches_device_call cfg db port name sp host network seg0.
Proof.
  intros Hsn Hsp Hh Hnet Hseg. destruct sn as [name|]; [|done].
  unfold has_host in Hh. unfold kwargs_of, kwargs.
  destruct (lookup_host (inventory cfg) name) as [host|] eqn:Hl; [|done].
  exists name, host. by repeat split.
Qed.

(** X17. [update_port_postcommit] for a VM port that is not a passthrough
    port. With every mapping of its host naming a known switch and a switch
    port, the port's network in the store and a runner that does not fail,
    the hook issues one call per mapping, in the order of the table:
    [add_trunk_vlan], or [conf_trunk_port] if the port has a trunk. The VLAN
    of these calls is the segmentation id of the first segment of the network
    as the store has it, not the provider attribute of the event's network;
    no binding is committed and nothing else is signalled. *)
Theorem update_port_postcommit_vm_port c cfg gw context pb network seg0 :
  let port := current context in
  let db := _plugin_context context in
  let mappings := default [] (port_mappings cfg !! binding_host_id pb) in
  binding_items port = Ok pb →
  _is_port_normal c port = true →
  _is_port_baremetal port = Ok false →
  _is_port_direct port = Ok false →
  (∀ m, m ∈ mappings →
        truthy_str m.1 = true ∧ truthy_str m.2 = true ∧ has_host cfg m.1 = true) →
  Network_get_object db (network_id (port_data port)) = Some network →
  head (segments network) = Some seg0 →
  (∀ call, gw call = None) →
  update_port_postcommit c cfg gw context
  = mkHook ((fun m => DeviceEv (port_state_call c db port (default "" m.1) m.2
                                                (segmentation_id seg0) (kwargs_of cfg m.1)))
              <$> mappings)
           (Ok tt).
Proof.
  cbv zeta. intros Hpb Hn Hbm Hd Hmaps Hnet Hseg Hgw.
  unfold update_port_postcommit, get_switch_meta, _switch_meta_from_port_host_id.
  rewrite Hn, Hbm. cbn [mbind Res_bind]. rewrite Hpb. cbn [mbind Res_bind].
  rewrite Hd. cbn [mbind Res_bind]. rewrite lift_hook_Ok_bind.
  unfold ensure_mappings, for_mappings.
  induction (default [] (port_mappings cfg !! binding_host_id pb))
    as [|m ms IH]; [done|].
  cbn [foreach fmap list_fmap]. rewrite IH by (intros m' Hm'; apply Hmaps; by right).
  destruct (Hmaps m) as (Hsn & Hsp & Hh); [by left|].
  destruct (reaches_device_call_of_host cfg (_plugin_context context) (current context)
              m.1 m.2 network seg0 Hsn Hsp Hh Hnet Hseg)
    as (name & host & Hname & Hkw & Hreach).
  rewrite Hook_bind_eq. unfold ensure_port. rewrite Hh, Hn. cbn [negb].
  rewrite Hname, (set_port_state_run c cfg gw _ _ _ _ _ _ _ Hreach), Hgw.
  rewrite M_bind_eq. cbn. by rewrite <- Hkw, Hname.
Qed.

Lemma ex_vm_mappings_usable m :
  m ∈ default [] (port_mappings ex_config !! "compute-1") →
  truthy_str m.1 = true ∧ truthy_str m.2 = true ∧ has_host ex_config m.1 = true.
Proof. vm_compute. by intros ->%list_elem_of_singleton. Qed.

Lemma update_port_postcommit_vm_port_witness :
  update_port_postcommit ex_consts ex_config ex_gw (ex_vm_context [])
  = mkHook [DeviceEv (add_trunk_vlan "sw1" (Some "eth1") (PyInt 100) (host_kwargs ex_sw1))]
           (Ok tt).
Proof.
  exact (update_port_postcommit_vm_port
           ex_consts ex_config ex_gw (ex_vm_context []) _ ex_network ex_segment
           eq_refl eq_refl eq_refl eq_refl ex_vm_mappings_usable eq_refl eq_refl
           (fun _ => eq_refl)).
Defined.
